(** * WebTestAssistant backend: a model of [backend/app.py]

    The service keeps the state of the single current test in five
    module-level variables, mutated by the Flask handlers and by the
    background worker thread that drives the browser agent.  This file
    embeds that state, the handlers and the worker, and proves the
    properties the specification states about them.

    Modelling conventions.
    - A Python [str] is a Rocq [string]; each character stands for the code
      point of the same number (U+0000 to U+00FF).
    - Every thread is a sequence of pieces; the pieces of all threads
      interleave freely.  The worker is cut at its calls into the external
      libraries (runner construction, browser construction, agent
      construction, task creation, the three awaits) and the poller at its
      awaits.  The start handler is cut at [thread.start()] (line 222), which
      hands the processor to the new thread: its checks and its reset are one
      piece, its response (lines 224-229) another, built from the shared state
      as it is then.  The stop handler is cut after its test (line 250) and
      after its assignment (line 251).  The other two handlers are one piece
      each.
    - What an external call does is not computed: its outcome arrives with
      the event that resumes the worker, and that of [thread.start()] with
      the start request.  A raised exception is an instance
      of [Exception], the class every handler of the source names; it carries
      the text of [str(e)] and the text of [traceback.format_exc()]. *)

From Stdlib Require Import ZArith Lia Bool Ascii String DecimalString.
From Stdlib.Strings Require Import Byte.
From stdpp Require Import base list.

Local Open Scope string_scope.
Local Open Scope Z_scope.

(** ** Python strings *)

Module PyStr.

(** [str.isspace] on one character, for code points below 256: the C0
    separators 9-13 and 28-31, the space, NEL (133) and NBSP (160). *)
Definition isspace (c : ascii) : bool :=
  let n := Z.of_N (N_of_ascii c) in
  ((9 <=? n) && (n <=? 13)) || ((28 <=? n) && (n <=? 32))
  || (n =? 133) || (n =? 160).

Fixpoint lstrip (s : string) : string :=
  match s with
  | EmptyString => EmptyString
  | String c r => if isspace c then lstrip r else s
  end.

Fixpoint rstrip (s : string) : string :=
  match s with
  | EmptyString => EmptyString
  | String c r =>
      match rstrip r with
      | EmptyString => if isspace c then EmptyString else String c EmptyString
      | r' => String c r'
      end
  end.

(** [s.strip()] with no argument. *)
Definition strip (s : string) : string := rstrip (lstrip s).

(** Truth value of a [str]: the empty string is false. *)
Definition truthy (s : string) : bool :=
  match s with EmptyString => false | _ => true end.

(** Every character of [s] is whitespace (this holds of the empty string). *)
Fixpoint blank (s : string) : bool :=
  match s with
  | EmptyString => true
  | String c r => isspace c && blank r
  end.

(** [needle in hay]. *)
Fixpoint contains (needle hay : string) : bool :=
  String.prefix needle hay
  || match hay with
     | EmptyString => false
     | String _ r => contains needle r
     end.

End PyStr.

(** ** JSON values, as [request.json] yields them and [jsonify] takes them *)

#[warnings="-register-all"]
Inductive json : Type :=
| JNull
| JBool (b : bool)
| JNum (n : Z)
| JStr (s : string)
| JArr (l : list json)
| JObj (l : list (string * json)).

(** [type(v).__name__] of the Python value a JSON value parses to. *)
Definition py_type_name (v : json) : string :=
  match v with
  | JNull => "NoneType"
  | JBool _ => "bool"
  | JNum _ => "int"
  | JStr _ => "str"
  | JArr _ => "list"
  | JObj _ => "dict"
  end.

(** [d[k]] on the pairs of a dict, [None] when the key is absent. *)
Fixpoint dict_lookup (k : string) (d : list (string * json)) : option json :=
  match d with
  | [] => None
  | (k', v) :: r => if String.eqb k k' then Some v else dict_lookup k r
  end.

(** An exception: [str(e)] and the traceback text. *)
Record exn : Type := Exn { exn_msg : string; exn_tb : string }.

(** Either a value or a raised exception. *)
Inductive result (A : Type) : Type :=
| Ok (a : A)
| Raise (e : exn).
Arguments Ok {A} a.
Arguments Raise {A} e.

Definition attribute_error (v : json) (attr : string) : exn :=
  Exn ("'" ++ py_type_name v ++ "' object has no attribute '" ++ attr ++ "'")
      "".

(** ** Shared state: the module-level variables of lines 32-37 *)

Record Globals : Type := mkGlobals {
  current_test : option string;
  test_status : string;
  test_logs : list string;
  browser_screenshot : option string;
  browser_url : string
}.

Definition cdp_port : Z := 9222.

Definition initial_globals : Globals :=
  mkGlobals None "idle" [] None "".

Definition set_status (st : string) (g : Globals) : Globals :=
  mkGlobals (current_test g) st (test_logs g) (browser_screenshot g)
            (browser_url g).

(** [test_logs.append(line)] *)
Definition log (line : string) (g : Globals) : Globals :=
  mkGlobals (current_test g) (test_status g) (test_logs g ++ [line])
            (browser_screenshot g) (browser_url g).

Definition set_screenshot (sh : option string) (g : Globals) : Globals :=
  mkGlobals (current_test g) (test_status g) (test_logs g) sh (browser_url g).

Definition set_url (u : string) (g : Globals) : Globals :=
  mkGlobals (current_test g) (test_status g) (test_logs g)
            (browser_screenshot g) u.

(** [test_status in ["running", "initializing"]] (lines 148, 200, 250). *)
Definition in_flight (st : string) : bool :=
  String.eqb st "running" || String.eqb st "initializing".


(** The statuses the specification calls terminal. *)
Definition terminal (st : string) : bool :=
  String.eqb st "completed" || String.eqb st "error" || String.eqb st "stopped".

(** ** Process environment *)

Record Env : Type := mkEnv {
  GEMINI_API_KEY : option string;     (* os.getenv('GEMINI_API_KEY') *)
  BROWSER_USE_AVAILABLE : bool        (* set once by the import at line 14 *)
}.

(** [bool(os.getenv('GEMINI_API_KEY'))] *)
Definition api_key_configured (env : Env) : bool :=
  match GEMINI_API_KEY env with
  | None => false
  | Some k => PyStr.truthy k
  end.

(** ** HTTP surface *)

Record response : Type := mkResponse { code : Z; body : json }.

(** [jsonify({"error": msg}), c] *)
Definition error_response (c : Z) (msg : string) : response :=
  mkResponse c (JObj [("error", JStr msg)]).

(** [jsonify({"message": msg})], status 200. *)
Definition message_response (msg : string) : response :=
  mkResponse 200 (JObj [("message", JStr msg)]).

(** What [request.json] evaluates to: the parsed body, or the exception
    Flask raises when the body is not JSON. *)
Definition request := result json.

(** Lines 193-194: [data = request.json; data.get('testSteps', '')]. *)
Definition get_test_steps (req : request) : result json :=
  match req with
  | Raise e => Raise e
  | Ok (JObj d) =>
      match dict_lookup "testSteps" d with
      | Some v => Ok v
      | None => Ok (JStr "")
      end
  | Ok v => Raise (attribute_error v "get")
  end.

(** Lines 231-233: the handler's own [except Exception]. *)
Definition start_failed (e : exn) : response :=
  error_response 500 ("Failed to start test: " ++ exn_msg e).

(** Lines 210-217: the reset of the shared state. *)
Definition reset_globals (test_steps : string) : Globals :=
  log "Preparing to start test execution..."
    (log "Test steps received"
       (mkGlobals (Some test_steps) "starting" [] None "")).

(** Lines 224-229: the last piece of [run_test], the response of a start
    whose thread was started; [status] is read from the shared state [g] as
    it is when this piece runs. *)
Definition started_response (g : Globals) : response :=
  mkResponse 200
    (JObj [("message", JStr "Test execution started");
           ("status", JStr (test_status g));
           ("testId", JStr "current");
           ("cdpPort", JNum cdp_port)]).

(** How the first piece of [run_test] ends. *)
Inductive start_outcome : Type :=
| Answered (resp : response)
    (* the handler returned: a check failed, or its [except] answered *)
| Started (test_steps : string).
    (* [thread.start()] returned; the response is still to be built *)

(** [run_test] (lines 188-233) up to and including [thread.start()], whose
    outcome is [started].  A [testSteps] value that is not a string has no
    [strip] method: the call at line 196 raises and the handler's own
    [except] answers.  When [thread.start()] raises, the same [except]
    answers, after the reset of lines 210-217. *)
Definition run_test (env : Env) (req : request) (started : result unit)
    (g : Globals) : start_outcome * Globals :=
  match get_test_steps req with
  | Raise e => (Answered (start_failed e), g)
  | Ok (JStr test_steps) =>
      if negb (PyStr.truthy (PyStr.strip test_steps)) then
        (Answered (error_response 400 "Test steps cannot be empty"), g)
      else if String.eqb (test_status g) "running"
              || String.eqb (test_status g) "initializing" then
        (Answered (error_response 409 "A test is already running"), g)
      else if negb (api_key_configured env) then
        (Answered (error_response 500 "GEMINI_API_KEY is not configured"), g)
      else if negb (BROWSER_USE_AVAILABLE env) then
        (Answered
           (error_response 500
              "browser-use library is not available. Please install it with: pip install browser-use"),
         g)
      else
        let g' := reset_globals test_steps in
        match started with
        | Ok _ => (Started test_steps, g')
        | Raise e => (Answered (start_failed e), g')
        end
  | Ok v => (Answered (start_failed (attribute_error v "strip")), g)
  end.

(** The pieces of [stop_test]: the test of line 250, the assignment of line
    251, the append of line 252. *)
Definition stop_test_check (g : Globals) : bool := in_flight (test_status g).

Definition stop_test_set (g : Globals) : Globals := set_status "stopped" g.

Definition stop_test_log (g : Globals) : Globals :=
  log "Test execution stopped by user" g.

(** [stop_test] (lines 246-255) run through with no other thread in
    between. *)
Definition stop_test (g : Globals) : response * Globals :=
  if in_flight (test_status g) then
    (message_response "Test execution stopped",
     log "Test execution stopped by user" (set_status "stopped" g))
  else
    (message_response "No test is currently running", g).

(** [get_test_status] (lines 235-244). *)
Definition get_test_status (g : Globals) : response :=
  mkResponse 200
    (JObj [("status", JStr (test_status g));
           ("logs", JArr (map JStr (test_logs g)));
           ("currentTest",
            match current_test g with Some t => JStr t | None => JNull end);
           ("browserScreenshot",
            match browser_screenshot g with
            | Some s => JStr s | None => JNull end);
           ("browserUrl", JStr (browser_url g));
           ("cdpPort", JNum cdp_port)]).

(** [health_check] (lines 179-186). *)
Definition health_check (env : Env) : response :=
  mkResponse 200
    (JObj [("status", JStr "healthy");
           ("service", JStr "WebTestAssistant");
           ("browser_use_available", JBool (BROWSER_USE_AVAILABLE env));
           ("gemini_api_configured", JBool (api_key_configured env))]).

(** ** [base64.b64encode(...).decode('utf-8')] *)

Module Base64.

(** The character of a 6-bit value in the standard alphabet. *)
Definition b64_char (n : Z) : ascii :=
  if n <? 26 then ascii_of_N (Z.to_N (65 + n))
  else if n <? 52 then ascii_of_N (Z.to_N (97 + (n - 26)))
  else if n <? 62 then ascii_of_N (Z.to_N (48 + (n - 52)))
  else if n =? 62 then "+"%char
  else "/"%char.

Definition byte_val (b : byte) : Z := Z.of_N (Byte.to_N b).

(** The four 6-bit values of a group of three bytes. *)
Definition sextet0 (a : Z) : Z := Z.shiftr a 2.
Definition sextet1 (a b : Z) : Z :=
  Z.lor (Z.shiftl (Z.land a 3) 4) (Z.shiftr b 4).
Definition sextet2 (b c : Z) : Z :=
  Z.lor (Z.shiftl (Z.land b 15) 2) (Z.shiftr c 6).
Definition sextet3 (c : Z) : Z := Z.land c 63.

Fixpoint b64encode (bs : list byte) : string :=
  match bs with
  | [] => EmptyString
  | [a] =>
      let a := byte_val a in
      String (b64_char (sextet0 a))
        (String (b64_char (sextet1 a 0)) "==")
  | [a; b] =>
      let a := byte_val a in
      let b := byte_val b in
      String (b64_char (sextet0 a))
        (String (b64_char (sextet1 a b))
           (String (b64_char (sextet2 b 0)) "="))
  | a :: b :: c :: r =>
      let a := byte_val a in
      let b := byte_val b in
      let c := byte_val c in
      String (b64_char (sextet0 a))
        (String (b64_char (sextet1 a b))
           (String (b64_char (sextet2 b c))
              (String (b64_char (sextet3 c)) (b64encode r))))
  end.

(** The 6-bit value of an alphabet character. *)
Definition b64_index (ch : ascii) : option Z :=
  let n := Z.of_N (N_of_ascii ch) in
  if (65 <=? n) && (n <=? 90) then Some (n - 65)
  else if (97 <=? n) && (n <=? 122) then Some (n - 97 + 26)
  else if (48 <=? n) && (n <=? 57) then Some (n - 48 + 52)
  else if n =? 43 then Some 62
  else if n =? 47 then Some 63
  else None.

Definition byte_of (n : Z) : option byte := Byte.of_N (Z.to_N n).

(** A strict decoder: groups of four characters, padding only in the last
    group, and the bits a padded group drops must be zero. *)
Fixpoint b64decode (s : string) : option (list byte) :=
  match s with
  | EmptyString => Some []
  | String c0 (String c1 (String c2 (String c3 r))) =>
      match b64_index c0, b64_index c1 with
      | Some s0, Some s1 =>
          let a := Z.lor (Z.shiftl s0 2) (Z.shiftr s1 4) in
          if Ascii.eqb c2 "="%char then
            if Ascii.eqb c3 "="%char && (Z.land s1 15 =? 0) then
              match r, byte_of a with
              | EmptyString, Some a' => Some [a']
              | _, _ => None
              end
            else None
          else
            match b64_index c2 with
            | Some s2 =>
                let b := Z.lor (Z.shiftl (Z.land s1 15) 4) (Z.shiftr s2 2) in
                if Ascii.eqb c3 "="%char then
                  if Z.land s2 3 =? 0 then
                    match r, byte_of a, byte_of b with
                    | EmptyString, Some a', Some b' => Some [a'; b']
                    | _, _, _ => None
                    end
                  else None
                else
                  match b64_index c3 with
                  | Some s3 =>
                      let c := Z.lor (Z.shiftl (Z.land s2 3) 6) s3 in
                      match byte_of a, byte_of b, byte_of c, b64decode r with
                      | Some a', Some b', Some c', Some tl =>
                          Some (a' :: b' :: c' :: tl)
                      | _, _, _, _ => None
                      end
                  | None => None
                  end
            | None => None
            end
      | _, _ => None
      end
  | _ => None
  end.

End Base64.

(** ** The background worker: [run_async_test] and [TestRunner] *)

(** The calls a worker makes into the external libraries, in the order it
    makes them. *)
Inductive call : Type :=
| CallRunnerInit                    (* TestRunner(), line 166 *)
| CallBrowser (headless : bool)     (* Browser(config=...), line 77 *)
| CallAgent (task : string)         (* Agent(task=...), line 94 *)
| CallCreateTask                    (* asyncio.create_task, line 109 *)
| CallAgentRun (max_steps : Z)      (* agent.run(max_steps=25), line 112 *)
| CallCancelPoller                  (* screenshot_task.cancel(), line 120 *)
| CallClose.                        (* self.browser.close(), line 136 *)

(** Where the poller task stands. *)
Inductive poller_pc : Type :=
| PollSleeping       (* in one of the three asyncio.sleep calls *)
| PollCapturing (seen : string)
                     (* awaiting page.screenshot, line 155; [seen] is the
                        status the loop test of line 148 read *)
| PollFinished.      (* the loop was left, or the task was cancelled *)

(** Where the worker stands: the external call it is waiting in. *)
Inductive worker_pc : Type :=
| WRunnerInit
| WBrowserInit
| WAgentInit
| WCreateTask
| WAgentRun
| WAwaitPoller
| WClosing
| WDone.

Record Worker : Type := mkWorker {
  w_steps : string;               (* the test_steps argument *)
  w_pc : worker_pc;
  w_browser : bool;               (* self.browser is set *)
  w_poller : option poller_pc;    (* screenshot_task, once created *)
  w_calls : list call
}.

(** The thread as [threading.Thread(...).start()] leaves it. *)
Definition new_worker (test_steps : string) : Worker :=
  mkWorker test_steps WRunnerInit false None [CallRunnerInit].

(** What resumes a worker: the outcome of the call it waits in, or a step of
    its poller. *)
Inductive wevent : Type :=
| EvRunnerInit (r : result unit)
| EvBrowserInit (r : result unit)
| EvAgentInit (r : result unit)
| EvCreateTask (r : result unit)
| EvAgentRun (r : result unit)
| EvPollerJoined
| EvClose (r : result unit)
| EvPollWake (page : option string)        (* the page's URL, if a page exists *)
| EvPollShot (r : result (list byte)).     (* what page.screenshot returned *)

(** [f"Execute the following test steps:\n{test_steps}"] *)
Definition agent_task (test_steps : string) : string :=
  "Execute the following test steps:" ++ String (ascii_of_N 10) test_steps.

Definition at_pc (pc : worker_pc) (c : list call) (w : Worker) : Worker :=
  mkWorker (w_steps w) pc (w_browser w) (w_poller w) (w_calls w ++ c).

Definition with_browser (w : Worker) : Worker :=
  mkWorker (w_steps w) (w_pc w) true (w_poller w) (w_calls w).

Definition with_poller (p : poller_pc) (w : Worker) : Worker :=
  mkWorker (w_steps w) (w_pc w) (w_browser w) (Some p) (w_calls w).

(** Lines 133-136: the [finally] of [run_test] up to the close call. *)
Definition enter_finally (w : Worker) : Worker :=
  if w_browser w then at_pc WClosing [CallClose] w else at_pc WDone [] w.

(** [TestRunner.__init__] (lines 40-59): the key is read first; the outcome
    [r] of the library constructors matters only when the key is there. *)
Definition runner_init (env : Env) (r : result unit) : result unit :=
  if api_key_configured env then r
  else Raise (Exn "GEMINI_API_KEY is not set in environment variables" "").

(** Lines 126-131: the outer handler of [TestRunner.run_test]. *)
Definition unexpected_error (e : exn) (g : Globals) : Globals :=
  log ("Traceback: " ++ exn_tb e)
    (log ("Unexpected error: " ++ exn_msg e) (set_status "error" g)).

(** Lines 173-177: the handler of [run_async_test]. *)
Definition init_failed (e : exn) (g : Globals) : Globals :=
  log ("Failed to initialize test runner: " ++ exn_msg e)
    (set_status "error" g).

(** One piece of the worker.  [None]: the event does not fit where the worker
    stands. *)
Definition worker_step (env : Env) (ev : wevent) (w : Worker) (g : Globals)
  : option (Worker * Globals) :=
  match w_pc w, ev with
  | WRunnerInit, EvRunnerInit r =>
      match runner_init env r with
      | Raise e => Some (at_pc WDone [] w, init_failed e g)
      | Ok _ =>
          let g1 := log "Starting WebTestAssistant..."
                      (set_status "initializing" g) in
          if negb (BROWSER_USE_AVAILABLE env) then
            Some (enter_finally w,
                  set_status "error"
                    (log "Error: browser-use library not available" g1))
          else
            Some (at_pc WBrowserInit [CallBrowser false] w,
                  log "Initializing browser with remote debugging..." g1)
      end
  | WBrowserInit, EvBrowserInit r =>
      match r with
      | Ok _ =>
          Some (at_pc WAgentInit [CallAgent (agent_task (w_steps w))]
                  (with_browser w),
                log "Browser view will be available shortly..."
                  (log "Starting AI agent..."
                     (set_status "running"
                        (log "Browser initialized successfully" g))))
      | Raise e =>
          Some (enter_finally w,
                set_status "error"
                  (log ("Browser initialization failed: " ++ exn_msg e) g))
      end
  | WAgentInit, EvAgentInit r =>
      match r with
      | Ok _ =>
          Some (at_pc WCreateTask [CallCreateTask] w,
                log "Running test automation..."
                  (log "AI agent created successfully" g))
      | Raise e =>
          Some (enter_finally w,
                set_status "error"
                  (log ("Failed to create AI agent: " ++ exn_msg e) g))
      end
  | WCreateTask, EvCreateTask r =>
      match r with
      | Ok _ =>
          Some (at_pc WAgentRun [CallAgentRun 25] (with_poller PollSleeping w),
                g)
      | Raise e => Some (enter_finally w, unexpected_error e g)
      end
  | WAgentRun, EvAgentRun r =>
      let g' :=
        match r with
        | Ok _ =>
            set_status "completed"
              (log "Test execution completed successfully!" g)
        | Raise e =>
            set_status "error" (log ("Test execution error: " ++ exn_msg e) g)
        end in
      Some (at_pc WAwaitPoller [CallCancelPoller] w, g')
  | WAwaitPoller, EvPollerJoined =>
      Some (enter_finally (with_poller PollFinished w), g)
  | WClosing, EvClose r =>
      match r with
      | Ok _ => Some (at_pc WDone [] w, log "Browser closed" g)
      | Raise e =>
          Some (at_pc WDone [] w,
                log ("Error closing browser: " ++ exn_msg e) g)
      end
  | WAgentRun, EvPollWake page =>
      match w_poller w with
      | Some PollSleeping =>
          if in_flight (test_status g) then
            match w_browser w, page with
            | true, Some url =>
                Some (with_poller (PollCapturing (test_status g)) w,
                      set_url url g)
            | _, _ => Some (with_poller PollSleeping w, g)
            end
          else Some (with_poller PollFinished w, g)
      | _ => None
      end
  | WAgentRun, EvPollShot r =>
      match w_poller w with
      | Some (PollCapturing _) =>
          match r with
          | Ok screenshot_bytes =>
              Some (with_poller PollSleeping w,
                    set_screenshot (Some (Base64.b64encode screenshot_bytes)) g)
          | Raise _ => Some (with_poller PollSleeping w, g)
          end
      | _ => None
      end
  | _, _ => None
  end.

(** ** The process: shared state, worker threads and handlers under way *)

(** Where a handler that has not returned in its first piece stands. *)
Inductive handler_pc : Type :=
| HStartRespond    (* run_test: past thread.start(), before lines 224-229 *)
| HStopSet         (* stop_test: past the test of line 250, before line 251 *)
| HStopLog         (* stop_test: past line 251, before line 252 *)
| HReturned.       (* the handler has answered *)

Record Sys : Type := mkSys {
  globals : Globals;
  workers : list Worker;
  handlers : list handler_pc
}.

Definition initial_sys : Sys := mkSys initial_globals [] [].

Inductive event : Type :=
| HttpHealth
| HttpRunTest (req : request) (started : result unit)
    (* a start request: first piece; [started] is what thread.start() does
       if the handler gets there *)
| HttpStatus
| HttpStop
    (* a stop request: the test of line 250, and the answer if it fails *)
| Handler (k : nat)
    (* the next piece of handler [k] *)
| Work (i : nat) (ev : wevent).

(** The next piece of a handler under way, on the shared state as it is
    now: the answer, if the piece gives it, the shared state and where the
    handler stands afterwards.  [None]: the handler has returned. *)
Definition handler_step (h : handler_pc) (g : Globals)
  : option (option response * Globals * handler_pc) :=
  match h with
  | HStartRespond => Some (Some (started_response g), g, HReturned)
  | HStopSet => Some (None, stop_test_set g, HStopLog)
  | HStopLog =>
      Some (Some (message_response "Test execution stopped"),
            stop_test_log g, HReturned)
  | HReturned => None
  end.

(** One event: the response, if the piece gives one, and the next state.
    [None]: the thread does not exist or cannot take the event. *)
Definition sys_step (env : Env) (e : event) (s : Sys)
  : option (option response * Sys) :=
  match e with
  | HttpHealth => Some (Some (health_check env), s)
  | HttpRunTest req started =>
      match run_test env req started (globals s) with
      | (Answered resp, g') =>
          Some (Some resp, mkSys g' (workers s) (handlers s))
      | (Started test_steps, g') =>
          Some (None,
                mkSys g' (workers s ++ [new_worker test_steps])
                      (handlers s ++ [HStartRespond]))
      end
  | HttpStatus => Some (Some (get_test_status (globals s)), s)
  | HttpStop =>
      if stop_test_check (globals s) then
        Some (None, mkSys (globals s) (workers s) (handlers s ++ [HStopSet]))
      else
        Some (Some (message_response "No test is currently running"), s)
  | Handler k =>
      match handlers s !! k with
      | Some h =>
          match handler_step h (globals s) with
          | Some (r, g', h') =>
              Some (r, mkSys g' (workers s) (<[k := h']> (handlers s)))
          | None => None
          end
      | None => None
      end
  | Work i ev =>
      match workers s !! i with
      | Some w =>
          match worker_step env ev w (globals s) with
          | Some (w', g') =>
              Some (None, mkSys g' (<[i := w']> (workers s)) (handlers s))
          | None => None
          end
      | None => None
      end
  end.

(** A whole list of events, with the responses in order. *)
Fixpoint exec (env : Env) (evs : list event) (s : Sys)
  : option (list response * Sys) :=
  match evs with
  | [] => Some ([], s)
  | e :: rest =>
      match sys_step env e s with
      | Some (r, s') =>
          match exec env rest s' with
          | Some (rs, s'') =>
              Some (match r with Some x => x :: rs | None => rs end, s'')
          | None => None
          end
      | None => None
      end
  end.

(** The states the process can be in. *)
Inductive reachable (env : Env) : Sys -> Prop :=
| reachable_init : reachable env initial_sys
| reachable_step (s s' : Sys) (e : event) (r : option response) :
    reachable env s ->
    sys_step env e s = Some (r, s') ->
    reachable env s'.

(** ** Vocabulary of the statements *)

Definition steps_of (req : request) : option string :=
  match get_test_steps req with
  | Ok (JStr test_steps) => Some test_steps
  | _ => None
  end.

(** The request passes the four checks of the handler: lines 210-222 are
    reached, where the state is reset and the worker thread started. *)
Definition accepted (env : Env) (req : request) (g : Globals) : bool :=
  match run_test env req (Ok tt) g with
  | (Started _, _) => true
  | _ => false
  end.

(** The events of a stop request whose handler runs through with no other
    thread in between, when it is the next handler to be registered. *)
Definition stop_request (s : Sys) : list event :=
  if stop_test_check (globals s) then
    [HttpStop; Handler (length (handlers s)); Handler (length (handlers s))]
  else [HttpStop].

(** A worker thread that has not returned yet. *)
Definition live (w : Worker) : bool :=
  match w_pc w with WDone => false | _ => true end.

Definition trace_runner : list call := [CallRunnerInit].
Definition trace_browser : list call := trace_runner ++ [CallBrowser false].
Definition trace_agent (steps : string) : list call :=
  trace_browser ++ [CallAgent (agent_task steps)].
Definition trace_task (steps : string) : list call :=
  trace_agent steps ++ [CallCreateTask].
Definition trace_run (steps : string) : list call :=
  trace_task steps ++ [CallAgentRun 25].
Definition trace_cancel (steps : string) : list call :=
  trace_run steps ++ [CallCancelPoller].

(** A poller that awaits a capture passed the loop test just before. *)
Definition poller_ok (p : poller_pc) : Prop :=
  match p with
  | PollCapturing seen => in_flight seen = true
  | _ => True
  end.

(** The calls that lead into the close of the browser, with the poller as it
    then stands. *)
Definition closing_trace (w : Worker) : Prop :=
  (w_calls w = (trace_agent (w_steps w) ++ [CallClose])%list /\ w_poller w = None)
  \/ (w_calls w = (trace_task (w_steps w) ++ [CallClose])%list /\ w_poller w = None)
  \/ (w_calls w = (trace_cancel (w_steps w) ++ [CallClose])%list
      /\ w_poller w = Some PollFinished).

(** What holds of a worker at each place it can stand. *)
Definition worker_ok (w : Worker) : Prop :=
  match w_pc w with
  | WRunnerInit =>
      w_calls w = trace_runner /\ w_browser w = false /\ w_poller w = None
  | WBrowserInit =>
      w_calls w = trace_browser /\ w_browser w = false /\ w_poller w = None
  | WAgentInit =>
      w_calls w = trace_agent (w_steps w) /\ w_browser w = true
      /\ w_poller w = None
  | WCreateTask =>
      w_calls w = trace_task (w_steps w) /\ w_browser w = true
      /\ w_poller w = None
  | WAgentRun =>
      w_calls w = trace_run (w_steps w) /\ w_browser w = true
      /\ exists p, w_poller w = Some p /\ poller_ok p
  | WAwaitPoller =>
      w_calls w = trace_cancel (w_steps w) /\ w_browser w = true
      /\ exists p, w_poller w = Some p
  | WClosing => w_browser w = true /\ closing_trace w
  | WDone =>
      (w_browser w = false /\ w_poller w = None
       /\ (w_calls w = trace_runner \/ w_calls w = trace_browser))
      \/ (w_browser w = true /\ closing_trace w)
  end.

Definition is_close (c : call) : bool :=
  match c with CallClose => true | _ => false end.

Definition is_agent_run (c : call) : bool :=
  match c with CallAgentRun _ => true | _ => false end.

(** How many times the worker called [self.browser.close()]. *)
Definition close_attempts (w : Worker) : nat :=
  length (List.filter is_close (w_calls w)).

(** The screenshot is absent or is what [b64encode] made of some bytes. *)
Definition screenshot_ok (g : Globals) : Prop :=
  browser_screenshot g = None
  \/ exists b : list byte, browser_screenshot g = Some (Base64.b64encode b).

Definition sys_ok (s : Sys) : Prop :=
  Forall worker_ok (workers s) /\ screenshot_ok (globals s).

(** The line the [finally] of [run_test] logs after the close (lines
    137-139). *)
Definition close_line (r : result unit) : string :=
  match r with
  | Ok _ => "Browser closed"
  | Raise e => "Error closing browser: " ++ exn_msg e
  end.

(** The shared state after the agent call returned or raised (lines
    113-117). *)
Definition agent_outcome (r : result unit) (g : Globals) : Globals :=
  match r with
  | Ok _ =>
      mkGlobals (current_test g) "completed"
        (test_logs g ++ ["Test execution completed successfully!"])
        (browser_screenshot g) (browser_url g)
  | Raise e =>
      mkGlobals (current_test g) "error"
        (test_logs g ++ ["Test execution error: " ++ exn_msg e])
        (browser_screenshot g) (browser_url g)
  end.

(** ** Process start: the [__main__] block (lines 257-277) *)

(** [str(n)] of an integer. *)
Definition py_str_int (n : Z) : string :=
  DecimalString.NilZero.string_of_int (Z.to_int n).

(** How the script ends: [exit(1)] after the lines it printed, or
    [app.run(debug=True, host='0.0.0.0', port=5000)] after them. *)
Inductive startup : Type :=
| Exit (printed : list string) (status : Z)
| Serve (printed : list string) (debug : bool) (host : string) (port : Z).

Definition main (env : Env) : startup :=
  if negb (api_key_configured env) then
    Exit ["Error: GEMINI_API_KEY environment variable is not set";
          "Please set your Gemini API key in a .env file or environment variable";
          "1. Copy backend/.env.example to backend/.env";
          "2. Add your Gemini API key to the .env file"] 1
  else if negb (BROWSER_USE_AVAILABLE env) then
    Exit ["Error: browser-use library is not installed";
          "Please install it with: pip install browser-use"] 1
  else
    Serve ["Starting WebTestAssistant Backend...";
           "Gemini API Key: Configured";
           "Server will start on http://localhost:5000";
           "Chrome Debug Port: " ++ py_str_int cdp_port;
           "browser-use: Available"] true "0.0.0.0" 5000.

(** The script reached [app.run]. *)
Definition serving (env : Env) : bool :=
  match main env with Serve _ _ _ _ => true | Exit _ _ => false end.

(** ** More vocabulary *)

(** The seven status texts the source assigns. *)
Definition status_values : list string :=
  ["idle"; "starting"; "initializing"; "running"; "completed"; "error";
   "stopped"].

(** The statuses that can be recorded while the only worker of the process
    stands at [pc].  "stopped" comes from a stop request, "starting" from a
    later start request whose thread could not be started. *)
Definition status_at (pc : worker_pc) (st : string) : bool :=
  match pc with
  | WRunnerInit => String.eqb st "starting"
  | WBrowserInit =>
      String.eqb st "initializing" || String.eqb st "stopped"
      || String.eqb st "starting"
  | WAgentInit | WCreateTask | WAgentRun =>
      String.eqb st "running" || String.eqb st "stopped"
      || String.eqb st "starting"
  | WAwaitPoller | WClosing | WDone =>
      String.eqb st "completed" || String.eqb st "error"
      || String.eqb st "stopped" || String.eqb st "starting"
  end.

(** A handler that is not in the middle of a stop request. *)
Definition no_stop (h : handler_pc) : bool :=
  match h with
  | HStopSet | HStopLog => false
  | _ => true
  end.

(** ** The history of a worker *)

(** [e] resumes worker [i] with an event of kind [p]. *)
Definition is_work (i : nat) (p : wevent -> bool) (e : event) : bool :=
  match e with
  | Work j ev => Nat.eqb j i && p ev
  | _ => false
  end.

(** How many events of [evs] resumed worker [i] with an event of kind [p]. *)
Definition times (i : nat) (p : wevent -> bool) (evs : list event) : nat :=
  length (List.filter (is_work i p) evs).

(** [Browser(...)] returned a handle. *)
Definition browser_built (ev : wevent) : bool :=
  match ev with EvBrowserInit (Ok _) => true | _ => false end.

(** [Agent(...)] returned an agent. *)
Definition agent_built (ev : wevent) : bool :=
  match ev with EvAgentInit (Ok _) => true | _ => false end.

(** [asyncio.create_task] returned the poller task. *)
Definition task_created (ev : wevent) : bool :=
  match ev with EvCreateTask (Ok _) => true | _ => false end.

(** [agent.run] returned or raised. *)
Definition agent_ended (ev : wevent) : bool :=
  match ev with EvAgentRun _ => true | _ => false end.

(** [self.browser.close()] returned or raised. *)
Definition close_ended (ev : wevent) : bool :=
  match ev with EvClose _ => true | _ => false end.

Definition is_create_task (c : call) : bool :=
  match c with CallCreateTask => true | _ => false end.

Definition is_cancel (c : call) : bool :=
  match c with CallCancelPoller => true | _ => false end.

(** How many calls of kind [f] the worker has made. *)
Definition count_call (f : call -> bool) (w : Worker) : nat :=
  length (List.filter f (w_calls w)).

Definition bool_nat (b : bool) : nat := if b then 1%nat else 0%nat.

(** The events that resume the poller, not the runner. *)
Definition is_poll (ev : wevent) : bool :=
  match ev with
  | EvPollWake _ | EvPollShot _ => true
  | _ => false
  end.

(** [l1] is an initial part of [l2]. *)
Definition extends (l1 l2 : list string) : Prop :=
  exists more, l2 = (l1 ++ more)%list.

(** The value of a key in the body of a response. *)
Definition body_field (k : string) (resp : response) : option json :=
  match body resp with
  | JObj d => dict_lookup k d
  | _ => None
  end.

(** The text of [str(e)] for the exception a body without usable steps
    makes the handler raise. *)
Definition malformed_text (req : request) : string :=
  match req with
  | Raise e => exn_msg e
  | Ok (JObj d) =>
      match dict_lookup "testSteps" d with
      | Some v => "'" ++ py_type_name v ++ "' object has no attribute 'strip'"
      | None => ""
      end
  | Ok v => "'" ++ py_type_name v ++ "' object has no attribute 'get'"
  end.

(** A character of the base64 alphabet, or the pad. *)
Definition b64_text_char (c : ascii) : bool :=
  match Base64.b64_index c with
  | Some _ => true
  | None => Ascii.eqb c "="%char
  end.

(** How many runner pieces a worker at [pc] can still take at most. *)
Definition pieces_left (pc : worker_pc) : nat :=
  match pc with
  | WRunnerInit => 7
  | WBrowserInit => 6
  | WAgentInit => 5
  | WCreateTask => 4
  | WAgentRun => 3
  | WAwaitPoller => 2
  | WClosing => 1
  | WDone => 0
  end.

(** The outcome-free event the runner at [pc] waits for, with outcome [r]
    where it has one. *)
Definition awaited (pc : worker_pc) (r : result unit) : wevent :=
  match pc with
  | WRunnerInit => EvRunnerInit r
  | WBrowserInit => EvBrowserInit r
  | WAgentInit => EvAgentInit r
  | WCreateTask => EvCreateTask r
  | WAgentRun => EvAgentRun r
  | WAwaitPoller => EvPollerJoined
  | WClosing | WDone => EvClose r
  end.

(** What holds while at most one worker has been started. *)
Definition solo_inv (s : Sys) : Prop :=
  match workers s with
  | [] =>
      handlers s = []
      /\ (test_status (globals s) = "idle"
          \/ test_status (globals s) = "starting")
  | [w] =>
      status_at (w_pc w) (test_status (globals s)) = true
      /\ (w_pc w = WRunnerInit ->
          Forall (fun h => no_stop h = true) (handlers s))
  | _ => True
  end.

(** Exhaustive checks over small ranges, used for the base64 facts. *)

Module Base64Check.

Import Base64.

Definition range (n : nat) : list Z := map Z.of_nat (seq 0 n).

Definition all1 (n : nat) (p : Z -> bool) : bool := forallb p (range n).

Definition all2 (n : nat) (p : Z -> Z -> bool) : bool :=
  forallb (fun a => forallb (p a) (range n)) (range n).

(** A character of the alphabet decodes to its index and is not the pad. *)
Definition char_good (n : Z) : bool :=
  match b64_index (b64_char n) with
  | Some m => (m =? n) && negb (Ascii.eqb (b64_char n) "="%char)
  | None => false
  end.

(** What the encoder and the decoder rely on, for every pair of bytes. *)
Definition group_good (a b : Z) : bool :=
  (sextet0 a <? 64) && (0 <=? sextet0 a)
  && (sextet1 a b <? 64) && (0 <=? sextet1 a b)
  && (sextet2 a b <? 64) && (0 <=? sextet2 a b)
  && (sextet3 a <? 64) && (0 <=? sextet3 a)
  && (Z.lor (Z.shiftl (sextet0 a) 2) (Z.shiftr (sextet1 a b) 4) =? a)
  && (Z.land (sextet1 a b) 15 =? Z.shiftr b 4)
  && (Z.lor (Z.shiftl (Z.shiftr a 4) 4) (Z.shiftr (sextet2 a b) 2) =? a)
  && (Z.land (sextet2 a b) 3 =? Z.shiftr b 6)
  && (Z.lor (Z.shiftl (Z.shiftr b 6) 6) (sextet3 b) =? b).

End Base64Check.

(** * Properties *)

(** ** Strings *)

Section StripFacts.

Import PyStr.

Lemma lstrip_blank (s : string) : blank s = true -> lstrip s = EmptyString.
Proof.
  induction s as [|c r IH]; simpl; [reflexivity|].
  destruct (isspace c); simpl; [exact IH | discriminate].
Qed.

Lemma rstrip_head_kept (c : ascii) (r : string) :
  isspace c = false -> truthy (rstrip (String c r)) = true.
Proof.
  intros Hc. simpl. destruct (rstrip r); [rewrite Hc|]; reflexivity.
Qed.

Lemma lstrip_not_blank (s : string) :
  blank s = false ->
  exists c r, lstrip s = String c r /\ isspace c = false.
Proof.
  induction s as [|c r IH]; simpl; [discriminate|].
  destruct (isspace c) eqn:Hc; simpl.
  - exact IH.
  - intros _. exists c, r. split; [reflexivity | exact Hc].
Qed.

(** [s.strip()] is empty exactly when [s] is all whitespace. *)
Lemma strip_truthy (s : string) : truthy (strip s) = negb (blank s).
Proof.
  unfold strip. destruct (blank s) eqn:Hb.
  - rewrite (lstrip_blank s Hb). reflexivity.
  - destruct (lstrip_not_blank s Hb) as (c & r & -> & Hc).
    exact (rstrip_head_kept c r Hc).
Qed.

End StripFacts.

(** ** The start handler *)

Lemma run_test_text
    (env : Env) (req : request) (started : result unit) (g : Globals)
    (s : string) :
  steps_of req = Some s ->
  run_test env req started g =
    if PyStr.blank s then
      (Answered (error_response 400 "Test steps cannot be empty"), g)
    else if in_flight (test_status g) then
      (Answered (error_response 409 "A test is already running"), g)
    else if negb (api_key_configured env) then
      (Answered (error_response 500 "GEMINI_API_KEY is not configured"), g)
    else if negb (BROWSER_USE_AVAILABLE env) then
      (Answered
         (error_response 500
            "browser-use library is not available. Please install it with: pip install browser-use"),
       g)
    else
      match started with
      | Ok _ => (Started s, reset_globals s)
      | Raise e => (Answered (start_failed e), reset_globals s)
      end.
Proof.
  unfold steps_of, run_test. intros H.
  destruct (get_test_steps req) as [[]|]; try discriminate.
  injection H as ->. rewrite strip_truthy, negb_involutive. reflexivity.
Qed.

Lemma run_test_no_text
    (env : Env) (req : request) (started : result unit) (g : Globals) :
  steps_of req = None ->
  exists e, run_test env req started g = (Answered (start_failed e), g).
Proof.
  unfold steps_of, run_test.
  destruct (get_test_steps req) as [[]|]; try discriminate; eauto.
Qed.

Lemma accepted_iff (env : Env) (req : request) (g : Globals) :
  accepted env req g = true <->
  exists s, steps_of req = Some s /\ PyStr.blank s = false /\
            in_flight (test_status g) = false /\
            api_key_configured env = true /\ BROWSER_USE_AVAILABLE env = true.
Proof.
  unfold accepted. destruct (steps_of req) as [s|] eqn:Hs.
  - rewrite (run_test_text env req _ g s Hs). split.
    + destruct (PyStr.blank s) eqn:E1, (in_flight (test_status g)) eqn:E2,
        (api_key_configured env) eqn:E3, (BROWSER_USE_AVAILABLE env) eqn:E4;
        simpl; intros; try discriminate.
      exists s. auto.
    + intros (s' & [= <-] & -> & -> & -> & ->). reflexivity.
  - destruct (run_test_no_text env req (Ok tt) g Hs) as [e ->]. split.
    + discriminate.
    + intros (s' & ? & _). discriminate.
Qed.

(** A request that fails a check is answered at once, whatever
    [thread.start()] would do, and changes nothing. *)
Lemma run_test_rejected_unchanged
    (env : Env) (req : request) (started : result unit) (g : Globals) :
  accepted env req g = false ->
  exists resp, run_test env req started g = (Answered resp, g).
Proof.
  intros Hacc. destruct (steps_of req) as [s|] eqn:Hs.
  - pose proof (accepted_iff env req g) as Hiff. rewrite Hacc in Hiff.
    rewrite (run_test_text env req started g s Hs).
    destruct (PyStr.blank s) eqn:E1; [eauto|].
    destruct (in_flight (test_status g)) eqn:E2; [eauto|].
    destruct (api_key_configured env) eqn:E3; [|eauto].
    destruct (BROWSER_USE_AVAILABLE env) eqn:E4; [|eauto].
    exfalso. assert (false = true) as Hf; [|discriminate Hf].
    apply Hiff. exists s. auto.
  - destruct (run_test_no_text env req started g Hs) as [e ->]. eauto.
Qed.

(** A request that passes the checks resets the state; a worker and a
    handler under way are added when the thread starts. *)
Lemma accepted_result
    (env : Env) (req : request) (started : result unit) (g : Globals) :
  accepted env req g = true ->
  exists steps,
    steps_of req = Some steps
    /\ run_test env req started g =
         match started with
         | Ok _ => (Started steps, reset_globals steps)
         | Raise e => (Answered (start_failed e), reset_globals steps)
         end.
Proof.
  intros Hacc. apply accepted_iff in Hacc as (steps & Hs & Hb & Hf & Hk & Ha).
  exists steps. split; [exact Hs|].
  rewrite (run_test_text env req started g steps Hs), Hb, Hf, Hk, Ha.
  reflexivity.
Qed.

(** The first piece ends with the thread started only after the reset. *)
Lemma run_test_started
    (env : Env) (req : request) (started : result unit) (g g' : Globals)
    (steps : string) :
  run_test env req started g = (Started steps, g') ->
  g' = reset_globals steps
  /\ steps_of req = Some steps
  /\ accepted env req g = true
  /\ started = Ok tt.
Proof.
  intros Hrun. destruct (steps_of req) as [x|] eqn:Hs.
  - pose proof (accepted_iff env req g) as Hacc.
    rewrite (run_test_text env req started g x Hs) in Hrun.
    destruct (PyStr.blank x) eqn:E1; [discriminate Hrun|].
    destruct (in_flight (test_status g)) eqn:E2; [discriminate Hrun|].
    destruct (api_key_configured env) eqn:E3; [|discriminate Hrun].
    destruct (BROWSER_USE_AVAILABLE env) eqn:E4; [|discriminate Hrun].
    simpl in Hrun. destruct started as [[]|e]; [|discriminate Hrun].
    injection Hrun as <- <-.
    repeat split. apply Hacc. exists x. auto.
  - destruct (run_test_no_text env req started g Hs) as [e He].
    rewrite He in Hrun. discriminate Hrun.
Qed.

Lemma steps_of_object (d : list (string * json)) (v : json) :
  dict_lookup "testSteps" d = Some v ->
  steps_of (Ok (JObj d)) = match v with JStr s => Some s | _ => None end.
Proof. unfold steps_of. simpl. intros ->. reflexivity. Qed.

Lemma sys_step_rejected
    (env : Env) (req : request) (started : result unit) (s : Sys)
    (resp : response) :
  run_test env req started (globals s) = (Answered resp, globals s) ->
  sys_step env (HttpRunTest req started) s = Some (Some resp, s).
Proof.
  intros H. unfold sys_step. rewrite H. destruct s; reflexivity.
Qed.

(** C4. A start request whose [testSteps] text is empty or consists of
    whitespace only is answered 400 with body
    [{"error": "Test steps cannot be empty"}], whatever the current status;
    the shared state keeps every field and no worker is started. *)
Theorem run_test_blank_steps
    (env : Env) (d : list (string * json)) (steps : string)
    (started : result unit) (s : Sys) :
  dict_lookup "testSteps" d = Some (JStr steps) ->
  PyStr.blank steps = true ->
  run_test env (Ok (JObj d)) started (globals s) =
    (Answered
       (mkResponse 400 (JObj [("error", JStr "Test steps cannot be empty")])),
     globals s)
  /\ sys_step env (HttpRunTest (Ok (JObj d)) started) s =
       Some (Some (mkResponse 400
                     (JObj [("error", JStr "Test steps cannot be empty")])),
             s).
Proof.
  intros Hd Hb.
  assert (run_test env (Ok (JObj d)) started (globals s) =
          (Answered (error_response 400 "Test steps cannot be empty"),
           globals s))
    as Hrun.
  { rewrite (run_test_text env _ _ _ steps)
      by (rewrite (steps_of_object d _ Hd); reflexivity).
    rewrite Hb. reflexivity. }
  split; [exact Hrun | exact (sys_step_rejected _ _ _ _ _ Hrun)].
Qed.

Lemma run_test_blank_steps_witness :
  let s := mkSys (mkGlobals (Some "old") "running" ["a"] (Some "QUJD") "u")
                 [new_worker "old"] [] in
  sys_step (mkEnv (Some "key") true)
    (HttpRunTest (Ok (JObj [("testSteps", JStr (String (ascii_of_N 9) " "))]))
       (Ok tt))
    s =
  Some (Some (mkResponse 400
                (JObj [("error", JStr "Test steps cannot be empty")])), s).
Proof.
  intros s.
  apply (run_test_blank_steps (mkEnv (Some "key") true)
           [("testSteps", JStr (String (ascii_of_N 9) " "))]
           (String (ascii_of_N 9) " ") (Ok tt) s); reflexivity.
Defined.

(** C10. A start request whose JSON object has no [testSteps] key is handled
    as one with empty steps: 400 with body
    [{"error": "Test steps cannot be empty"}], shared state and workers
    untouched. *)
Theorem run_test_missing_key
    (env : Env) (d : list (string * json)) (started : result unit) (s : Sys) :
  dict_lookup "testSteps" d = None ->
  get_test_steps (Ok (JObj d)) = Ok (JStr "")
  /\ run_test env (Ok (JObj d)) started (globals s) =
       run_test env (Ok (JObj (("testSteps", JStr "") :: d))) started
         (globals s)
  /\ run_test env (Ok (JObj d)) started (globals s) =
       (Answered
          (mkResponse 400 (JObj [("error", JStr "Test steps cannot be empty")])),
        globals s)
  /\ sys_step env (HttpRunTest (Ok (JObj d)) started) s =
       Some (Some (mkResponse 400
                     (JObj [("error", JStr "Test steps cannot be empty")])),
             s).
Proof.
  intros Hd.
  assert (get_test_steps (Ok (JObj d)) = Ok (JStr "")) as Hget
      by (simpl; rewrite Hd; reflexivity).
  assert (run_test env (Ok (JObj d)) started (globals s) =
          (Answered (error_response 400 "Test steps cannot be empty"),
           globals s))
    as Hrun by (unfold run_test; rewrite Hget; reflexivity).
  repeat split; [exact Hget | rewrite Hrun; reflexivity | exact Hrun
                | exact (sys_step_rejected _ _ _ _ _ Hrun)].
Qed.

Lemma run_test_missing_key_witness :
  run_test (mkEnv (Some "key") true) (Ok (JObj [("steps", JStr "open page")]))
    (Ok tt) initial_globals =
  (Answered
     (mkResponse 400 (JObj [("error", JStr "Test steps cannot be empty")])),
   initial_globals).
Proof.
  exact (proj1 (proj2 (proj2
    (run_test_missing_key (mkEnv (Some "key") true)
       [("steps", JStr "open page")] (Ok tt) initial_sys eq_refl)))).
Defined.

(** C7. With non-blank steps, no run in flight and [GEMINI_API_KEY] unset
    (or empty), the start request is answered 500 with an error text that
    contains "not configured"; the shared state is unchanged and no worker is
    started. *)
Theorem run_test_key_unset
    (env : Env) (d : list (string * json)) (steps : string)
    (started : result unit) (s : Sys) :
  dict_lookup "testSteps" d = Some (JStr steps) ->
  PyStr.blank steps = false ->
  in_flight (test_status (globals s)) = false ->
  api_key_configured env = false ->
  exists msg,
    PyStr.contains "not configured" msg = true
    /\ run_test env (Ok (JObj d)) started (globals s) =
         (Answered (mkResponse 500 (JObj [("error", JStr msg)])), globals s)
    /\ sys_step env (HttpRunTest (Ok (JObj d)) started) s =
         Some (Some (mkResponse 500 (JObj [("error", JStr msg)])), s).
Proof.
  intros Hd Hb Hf Hk. exists "GEMINI_API_KEY is not configured".
  assert (run_test env (Ok (JObj d)) started (globals s) =
          (Answered (error_response 500 "GEMINI_API_KEY is not configured"),
           globals s)) as Hrun.
  { rewrite (run_test_text env _ _ _ steps)
      by (rewrite (steps_of_object d _ Hd); reflexivity).
    rewrite Hb, Hf, Hk. reflexivity. }
  repeat split; [exact Hrun | exact (sys_step_rejected _ _ _ _ _ Hrun)].
Qed.

Lemma run_test_key_unset_witness :
  exists msg,
    PyStr.contains "not configured" msg = true
    /\ run_test (mkEnv None true)
         (Ok (JObj [("testSteps", JStr "go to example.com")])) (Ok tt)
         initial_globals =
         (Answered (mkResponse 500 (JObj [("error", JStr msg)])),
          initial_globals)
    /\ sys_step (mkEnv None true)
         (HttpRunTest (Ok (JObj [("testSteps", JStr "go to example.com")]))
            (Ok tt))
         initial_sys =
         Some (Some (mkResponse 500 (JObj [("error", JStr msg)])), initial_sys).
Proof.
  apply (run_test_key_unset (mkEnv None true)
           [("testSteps", JStr "go to example.com")] "go to example.com"
           (Ok tt) initial_sys); reflexivity.
Defined.

(** ** Handlers under way *)

Lemma lookup_snoc (A : Type) (l : list A) (x : A) :
  (l ++ [x])%list !! length l = Some x.
Proof. induction l as [|a l IH]; [reflexivity | exact IH]. Qed.

Lemma insert_snoc (A : Type) (l : list A) (x y : A) :
  <[length l := y]> (l ++ [x])%list = (l ++ [y])%list.
Proof.
  induction l as [|a l IH]; [reflexivity|]. simpl. f_equal. exact IH.
Qed.

(** The next piece of the handler registered last. *)
Lemma handler_step_last
    (env : Env) (g : Globals) (ws : list Worker) (hs : list handler_pc)
    (h h' : handler_pc) (r : option response) (g' : Globals) :
  handler_step h g = Some (r, g', h') ->
  sys_step env (Handler (length hs)) (mkSys g ws (hs ++ [h])) =
    Some (r, mkSys g' ws (hs ++ [h'])).
Proof.
  intros H. unfold sys_step. simpl.
  rewrite lookup_snoc, H, insert_snoc. reflexivity.
Qed.

(** A start request that passes the checks, its thread started and its
    response built with no other thread in between. *)
Lemma start_then_respond
    (env : Env) (req : request) (steps : string) (s : Sys) :
  steps_of req = Some steps ->
  accepted env req (globals s) = true ->
  exec env [HttpRunTest req (Ok tt); Handler (length (handlers s))] s =
    Some ([started_response (reset_globals steps)],
          mkSys (reset_globals steps) (workers s ++ [new_worker steps])
                (handlers s ++ [HReturned])).
Proof.
  intros Hs Hacc.
  destruct (accepted_result env req (Ok tt) _ Hacc)
    as (steps' & Hs' & Hrun).
  rewrite Hs in Hs'. injection Hs' as <-.
  unfold exec. unfold sys_step at 1. rewrite Hrun.
  rewrite (handler_step_last env _ _ (handlers s) HStartRespond HReturned
             (Some (started_response (reset_globals steps)))
             (reset_globals steps) eq_refl).
  reflexivity.
Qed.

(** A response built at once after the start sees the state the reset left;
    one built after the worker ran carries what the worker recorded. *)
Lemma start_response_after_worker :
  let env := mkEnv (Some "key") true in
  let req := Ok (JObj [("testSteps", JStr "go to example.com")]) in
  accepted env req initial_globals = true
  /\ (exists r s,
        exec env [HttpRunTest req (Ok tt); Work 0 (EvRunnerInit (Ok tt));
                  Handler 0] initial_sys = Some ([r], s)
        /\ code r = 200
        /\ body_field "status" r = Some (JStr "initializing")
        /\ body_field "status" r <> Some (JStr "starting"))
  /\ (exists r s,
        exec env [HttpRunTest req (Ok tt);
                  Work 0 (EvRunnerInit (Raise (Exn "quota exceeded" "")));
                  Handler 0] initial_sys = Some ([r], s)
        /\ code r = 200
        /\ body_field "status" r = Some (JStr "error")).
Proof.
  split; [reflexivity|]. split.
  - do 2 eexists. split; [reflexivity|]. repeat split. discriminate.
  - do 2 eexists. split; [reflexivity|]. repeat split.
Qed.

(** C9 (amended). A start request that passes the checks and whose thread
    starts leaves the shared state at exactly status "starting", current
    test [steps], screenshot [None], url "" and the two log lines the handler
    appended to the emptied log, with one worker started on [steps].  The
    response, built afterwards, has code 200 and carries testId "current",
    the CDP port and the status the shared state holds when it is built:
    "starting" when no other thread ran since the reset. *)
Theorem run_test_accepted (env : Env) (req : request) (s : Sys) :
  accepted env req (globals s) = true ->
  exists steps,
    get_test_steps req = Ok (JStr steps)
    /\ reset_globals steps =
         mkGlobals (Some steps) "starting"
           ([] ++ ["Test steps received"] ++
                  ["Preparing to start test execution..."])
           None ""
    /\ run_test env req (Ok tt) (globals s) = (Started steps, reset_globals steps)
    /\ sys_step env (HttpRunTest req (Ok tt)) s =
         Some (None,
               mkSys (reset_globals steps)
                     (workers s ++ [new_worker steps])
                     (handlers s ++ [HStartRespond]))
    /\ (forall (s1 : Sys) (k : nat),
          handlers s1 !! k = Some HStartRespond ->
          sys_step env (Handler k) s1 =
            Some (Some (mkResponse 200
                          (JObj [("message", JStr "Test execution started");
                                 ("status", JStr (test_status (globals s1)));
                                 ("testId", JStr "current");
                                 ("cdpPort", JNum 9222)])),
                  mkSys (globals s1) (workers s1)
                        (<[k := HReturned]> (handlers s1))))
    /\ exec env [HttpRunTest req (Ok tt); Handler (length (handlers s))] s =
         Some ([mkResponse 200
                  (JObj [("message", JStr "Test execution started");
                         ("status", JStr "starting");
                         ("testId", JStr "current");
                         ("cdpPort", JNum 9222)])],
               mkSys (reset_globals steps)
                     (workers s ++ [new_worker steps])
                     (handlers s ++ [HReturned])).
Proof.
  intros Hacc.
  destruct (accepted_result env req (Ok tt) _ Hacc)
    as (steps & Hs & Hrun).
  exists steps.
  assert (sys_step env (HttpRunTest req (Ok tt)) s =
          Some (None,
                mkSys (reset_globals steps) (workers s ++ [new_worker steps])
                      (handlers s ++ [HStartRespond]))) as Hstep
    by (unfold sys_step; rewrite Hrun; reflexivity).
  repeat split.
  - unfold steps_of in Hs.
    destruct (get_test_steps req) as [[]|]; try discriminate.
    injection Hs as ->. reflexivity.
  - exact Hrun.
  - exact Hstep.
  - intros s1 k Hk. unfold sys_step. rewrite Hk. reflexivity.
  - unfold exec. rewrite Hstep.
    rewrite (handler_step_last env _ _ (handlers s) HStartRespond HReturned
               (Some (started_response (reset_globals steps)))
               (reset_globals steps) eq_refl).
    reflexivity.
Qed.

Lemma run_test_accepted_witness :
  let env := mkEnv (Some "key") true in
  let req := Ok (JObj [("testSteps", JStr "go to example.com")]) in
  let s := mkSys (mkGlobals (Some "old") "completed" ["x"] (Some "QUJD") "u")
             [] [] in
  exists steps,
    get_test_steps req = Ok (JStr steps)
    /\ exec env [HttpRunTest req (Ok tt); Handler 0] s =
         Some ([mkResponse 200
                  (JObj [("message", JStr "Test execution started");
                         ("status", JStr "starting");
                         ("testId", JStr "current");
                         ("cdpPort", JNum 9222)])],
               mkSys (reset_globals steps) [new_worker steps] [HReturned]).
Proof.
  intros env req s.
  destruct (run_test_accepted env req s eq_refl)
    as (steps & H1 & _ & _ & _ & _ & H6).
  exists steps. split; [exact H1 | exact H6].
Defined.

(** ** The stop handler *)

(** The pieces of a stop request, run with no other thread in between, do
    what [stop_test] does. *)
Lemma stop_request_exec (env : Env) (s : Sys) :
  exec env (stop_request s) s =
    Some ([fst (stop_test (globals s))],
          mkSys (snd (stop_test (globals s))) (workers s)
                (handlers s ++
                 if stop_test_check (globals s) then [HReturned] else [])).
Proof.
  unfold stop_request, stop_test, stop_test_check.
  destruct (in_flight (test_status (globals s))) eqn:Hf.
  - unfold exec. unfold sys_step at 1. unfold stop_test_check. rewrite Hf.
    rewrite (handler_step_last env _ _ (handlers s) HStopSet HStopLog None
               (stop_test_set (globals s)) eq_refl).
    rewrite (handler_step_last env _ _ (handlers s) HStopLog HReturned
               (Some (message_response "Test execution stopped"))
               (stop_test_log (stop_test_set (globals s))) eq_refl).
    reflexivity.
  - unfold exec, sys_step, stop_test_check. rewrite Hf, app_nil_r.
    destruct s; reflexivity.
Qed.

(** C6. When the status is "running" or "initializing", a stop request sets
    it to "stopped", appends the one line "Test execution stopped by user"
    and changes no other field; otherwise it answers 200 with message
    "No test is currently running" and changes nothing.  In both cases the
    worker threads, their pollers and their browsers are left as they
    were.  Piece by piece: the test changes nothing, the assignment changes
    the status only, the append changes the logs only. *)
Theorem stop_test_effect (env : Env) (s : Sys) :
  (test_status (globals s) = "running"
   \/ test_status (globals s) = "initializing" ->
   exec env (stop_request s) s =
     Some ([mkResponse 200 (JObj [("message", JStr "Test execution stopped")])],
           mkSys (mkGlobals (current_test (globals s)) "stopped"
                    (test_logs (globals s) ++
                       ["Test execution stopped by user"])
                    (browser_screenshot (globals s)) (browser_url (globals s)))
                 (workers s) (handlers s ++ [HReturned]))
   /\ sys_step env HttpStop s =
        Some (None, mkSys (globals s) (workers s) (handlers s ++ [HStopSet])))
  /\ (test_status (globals s) <> "running" ->
      test_status (globals s) <> "initializing" ->
      stop_request s = [HttpStop]
      /\ sys_step env HttpStop s =
           Some (Some (mkResponse 200
                         (JObj [("message",
                                 JStr "No test is currently running")])), s))
  /\ (forall k, handlers s !! k = Some HStopSet ->
      sys_step env (Handler k) s =
        Some (None,
              mkSys (mkGlobals (current_test (globals s)) "stopped"
                       (test_logs (globals s))
                       (browser_screenshot (globals s))
                       (browser_url (globals s)))
                    (workers s) (<[k := HStopLog]> (handlers s))))
  /\ (forall k, handlers s !! k = Some HStopLog ->
      sys_step env (Handler k) s =
        Some (Some (mkResponse 200
                      (JObj [("message", JStr "Test execution stopped")])),
              mkSys (mkGlobals (current_test (globals s))
                       (test_status (globals s))
                       (test_logs (globals s) ++
                          ["Test execution stopped by user"])
                       (browser_screenshot (globals s))
                       (browser_url (globals s)))
                    (workers s) (<[k := HReturned]> (handlers s)))).
Proof.
  assert (test_status (globals s) = "running"
          \/ test_status (globals s) = "initializing" ->
          in_flight (test_status (globals s)) = true) as Hin
    by (intros [H|H]; unfold in_flight; rewrite H; reflexivity).
  assert (test_status (globals s) <> "running" ->
          test_status (globals s) <> "initializing" ->
          in_flight (test_status (globals s)) = false) as Hout.
  { intros N1 N2. unfold in_flight.
    destruct (String.eqb_spec (test_status (globals s)) "running");
      [contradiction|].
    destruct (String.eqb_spec (test_status (globals s)) "initializing");
      [contradiction | reflexivity]. }
  repeat split.
  - rewrite (stop_request_exec env s). unfold stop_test, stop_test_check.
    rewrite (Hin H). reflexivity.
  - unfold sys_step, stop_test_check. rewrite (Hin H). reflexivity.
  - unfold stop_request, stop_test_check. rewrite (Hout H H0). reflexivity.
  - unfold sys_step, stop_test_check. rewrite (Hout H H0). reflexivity.
  - intros k Hk. unfold sys_step. rewrite Hk. reflexivity.
  - intros k Hk. unfold sys_step. rewrite Hk. reflexivity.
Qed.

Lemma stop_test_effect_witness :
  let w := mkWorker "t" WAgentRun true (Some PollSleeping) (trace_run "t") in
  let s := mkSys (mkGlobals (Some "t") "running" ["a"] None "u") [w] [] in
  exec (mkEnv None false) [HttpStop; Handler 0; Handler 0] s =
    Some ([mkResponse 200 (JObj [("message", JStr "Test execution stopped")])],
          mkSys (mkGlobals (Some "t") "stopped"
                   ["a"; "Test execution stopped by user"] None "u")
                [w] [HReturned]).
Proof.
  intros w s.
  exact (proj1 (proj1 (stop_test_effect (mkEnv None false) s)
                  (or_introl eq_refl))).
Defined.

(** ** One run at a time *)




(** ** Invariants of a worker *)

Lemma new_worker_ok (steps : string) : worker_ok (new_worker steps).
Proof. repeat split. Qed.

Ltac break_step H :=
  repeat match type of H with
    | context [match ?x with _ => _ end] =>
        let E := fresh "E" in destruct x eqn:E; try discriminate H
    | Some _ = Some _ => injection H as <- <-
    | None = Some _ => discriminate H
    end.

Lemma worker_step_steps
    (env : Env) (ev : wevent) (w w' : Worker) (g g' : Globals) :
  worker_step env ev w g = Some (w', g') -> w_steps w' = w_steps w.
Proof.
  unfold worker_step, enter_finally. intros H.
  break_step H; reflexivity.
Qed.

Ltac leaf :=
  repeat split;
  first [ reflexivity | assumption
        | eexists; split; [reflexivity | first [assumption | exact I]]
        | eexists; reflexivity ].

Ltac pick :=
  first [ solve [leaf]
        | solve [left; pick]
        | solve [right; pick]
        | solve [split; [leaf | pick]] ].

Lemma worker_step_ok
    (env : Env) (ev : wevent) (w w' : Worker) (g g' : Globals) :
  worker_step env ev w g = Some (w', g') -> worker_ok w -> worker_ok w'.
Proof.
  destruct w as [st pc br po ca].
  unfold worker_step, enter_finally, worker_ok, closing_trace, at_pc,
    with_poller, with_browser.
  cbn [w_pc w_steps w_browser w_poller w_calls].
  intros H Hok.
  destruct pc; break_step H; cbn [w_pc w_steps w_browser w_poller w_calls] in *.
  all: repeat match goal with
         | H : _ /\ _ |- _ => destruct H
         | H : exists _, _ |- _ => destruct H
         end; subst; try discriminate.
  all: rewrite ?app_nil_r; unfold poller_ok; pick.
Qed.

(** ** Invariants of the process *)

(** The only piece of a worker that assigns [browser_screenshot] is the
    poller's resumption after a capture that returned bytes (line 156). *)
Lemma worker_step_screenshot
    (env : Env) (ev : wevent) (w w' : Worker) (g g' : Globals) :
  worker_step env ev w g = Some (w', g') ->
  browser_screenshot g' = browser_screenshot g
  \/ exists (b : list byte) (seen : string),
       ev = EvPollShot (Ok b)
       /\ w_pc w = WAgentRun
       /\ w_poller w = Some (PollCapturing seen)
       /\ browser_screenshot g' = Some (Base64.b64encode b).
Proof.
  unfold worker_step. intros H.
  destruct (w_pc w) eqn:Epc; break_step H;
    first [left; reflexivity | right; do 2 eexists; repeat split].
Qed.

(** The first piece of a start request leaves the state as it is or resets
    it, the latter exactly when the request passes the checks. *)
Lemma run_test_globals
    (env : Env) (req : request) (started : result unit) (g : Globals) :
  (accepted env req g = false /\ snd (run_test env req started g) = g)
  \/ (accepted env req g = true
      /\ exists steps, steps_of req = Some steps
                       /\ snd (run_test env req started g) = reset_globals steps).
Proof.
  destruct (accepted env req g) eqn:Hacc.
  - right. split; [reflexivity|].
    destruct (accepted_result env req started g Hacc)
      as (steps & Hs & Hrun).
    exists steps. split; [exact Hs|]. rewrite Hrun. destruct started; reflexivity.
  - left. split; [reflexivity|].
    destruct (run_test_rejected_unchanged env req started g Hacc) as [resp ->].
    reflexivity.
Qed.

(** A piece of a handler under way keeps current test, screenshot and URL,
    assigns at most "stopped" to the status and appends at most one line. *)
Lemma handler_step_frame
    (h h' : handler_pc) (g g' : Globals) (r : option response) :
  handler_step h g = Some (r, g', h') ->
  current_test g' = current_test g
  /\ browser_screenshot g' = browser_screenshot g
  /\ browser_url g' = browser_url g
  /\ (test_status g' = test_status g
      \/ (h = HStopSet /\ test_status g' = "stopped"))
  /\ (test_logs g' = test_logs g
      \/ test_logs g' = (test_logs g ++ ["Test execution stopped by user"])%list).
Proof.
  destruct h; simpl; intros H; try discriminate H;
    injection H as <- <- <-; simpl; auto 10.
Qed.

Lemma sys_step_ok (env : Env) (e : event) (s s' : Sys) (r : option response) :
  sys_step env e s = Some (r, s') -> sys_ok s -> sys_ok s'.
Proof.
  intros Hstep [Hw Hg]. destruct e; simpl in Hstep.
  - injection Hstep as <- <-. split; assumption.
  - pose proof (run_test_globals env req started (globals s)) as Hgl.
    destruct (run_test env req started (globals s)) as [[resp|steps] g'];
      injection Hstep as <- <-; simpl in *; split; simpl.
    + exact Hw.
    + destruct Hgl as [[_ ->]|(_ & st & _ & ->)]; [exact Hg | left; reflexivity].
    + apply Forall_app. split; [exact Hw|].
      constructor; [apply new_worker_ok | constructor].
    + destruct Hgl as [[_ ->]|(_ & st & _ & ->)]; [exact Hg | left; reflexivity].
  - injection Hstep as <- <-. split; assumption.
  - destruct (stop_test_check (globals s));
      injection Hstep as <- <-; split; simpl; assumption.
  - destruct (handlers s !! k) as [h|]; [|discriminate].
    destruct (handler_step h (globals s)) as [[[r0 g'] h']|] eqn:Hh;
      [|discriminate].
    injection Hstep as <- <-. split; simpl; [exact Hw|].
    destruct (handler_step_frame _ _ _ _ _ Hh) as (_ & Hsc & _).
    unfold screenshot_ok. rewrite Hsc. exact Hg.
  - destruct (workers s !! i) as [w|] eqn:Hi; [|discriminate].
    destruct (worker_step env ev w (globals s)) as [[w' g']|] eqn:Hws;
      [|discriminate].
    injection Hstep as <- <-. split; simpl.
    + apply Forall_insert; [exact Hw|].
      apply (worker_step_ok env ev w w' _ _ Hws).
      exact (proj1 (Forall_lookup _ _) Hw i w Hi).
    + destruct (worker_step_screenshot env ev w w' _ _ Hws)
        as [H|(b & seen & _ & _ & _ & H)].
      * unfold screenshot_ok. rewrite H. exact Hg.
      * right. exists b. exact H.
Qed.

Lemma reachable_ok (env : Env) (s : Sys) : reachable env s -> sys_ok s.
Proof.
  induction 1 as [|s s' e r _ IH Hstep].
  - split; [constructor | left; reflexivity].
  - exact (sys_step_ok env e s s' r Hstep IH).
Qed.

Lemma reachable_worker_ok (env : Env) (s : Sys) (i : nat) (w : Worker) :
  reachable env s -> workers s !! i = Some w -> worker_ok w.
Proof.
  intros Hr Hi.
  exact (proj1 (Forall_lookup _ _) (proj1 (reachable_ok env s Hr)) i w Hi).
Qed.

(** Running a list of events from a reachable state ends in one. *)
Lemma exec_reachable (env : Env) (evs : list event) :
  forall (s s' : Sys) (rs : list response),
    reachable env s -> exec env evs s = Some (rs, s') -> reachable env s'.
Proof.
  induction evs as [|e evs IH]; simpl; intros s s' rs Hr H.
  - injection H as <- <-. exact Hr.
  - destruct (sys_step env e s) as [[r s1]|] eqn:Hstep; [|discriminate].
    destruct (exec env evs s1) as [[rs1 s2]|] eqn:Hexec; [|discriminate].
    injection H as <- <-.
    exact (IH s1 s2 rs1 (reachable_step env s s1 e r Hr Hstep) Hexec).
Qed.

(** Running one more event at the end. *)
Lemma exec_snoc (env : Env) (evs : list event) (e : event) :
  forall (s s' : Sys) (rs : list response),
    exec env (evs ++ [e]) s = Some (rs, s') ->
    exists rs1 s1 r,
      exec env evs s = Some (rs1, s1) /\ sys_step env e s1 = Some (r, s').
Proof.
  induction evs as [|e0 evs IH]; simpl; intros s s' rs H.
  - destruct (sys_step env e s) as [[r s1]|] eqn:Hstep; [|discriminate].
    injection H as _ <-. eauto.
  - destruct (sys_step env e0 s) as [[r0 s0]|] eqn:Hstep; [|discriminate].
    destruct (exec env (evs ++ [e]) s0) as [[rs0 s2]|] eqn:Hexec;
      [|discriminate].
    injection H as _ <-.
    destruct (IH s0 s2 rs0 Hexec) as (rs1 & s1 & r & H1 & H2).
    rewrite H1. eauto.
Qed.

(** ** The history of a worker *)

Lemma times_snoc (i : nat) (p : wevent -> bool) (evs : list event) (e : event) :
  times i p (evs ++ [e]) = (times i p evs + bool_nat (is_work i p e))%nat.
Proof.
  unfold times. rewrite List.filter_app, length_app. simpl.
  destruct (is_work i p e); reflexivity.
Qed.

Lemma sys_step_workers_length
    (env : Env) (e : event) (s s' : Sys) (r : option response) :
  sys_step env e s = Some (r, s') ->
  (length (workers s) <= length (workers s'))%nat.
Proof.
  intros H. destruct e; simpl in H.
  - injection H as <- <-. lia.
  - destruct (run_test env req started (globals s)) as [[resp|steps] g'];
      injection H as <- <-; simpl; rewrite ?length_app; lia.
  - injection H as <- <-. lia.
  - destruct (stop_test_check (globals s)); injection H as <- <-; simpl; lia.
  - destruct (handlers s !! k) as [h|]; [|discriminate].
    destruct (handler_step h (globals s)) as [[[r0 g'] h']|]; [|discriminate].
    injection H as <- <-. simpl. lia.
  - destruct (workers s !! i) as [w|]; [|discriminate].
    destruct (worker_step env ev w (globals s)) as [[w' g']|]; [|discriminate].
    injection H as <- <-. simpl. rewrite length_insert. lia.
Qed.

(** No event resumes a worker before it is started. *)
Lemma times_unborn (env : Env) (p : wevent -> bool) (evs : list event) :
  forall (rs : list response) (s : Sys) (j : nat),
    exec env evs initial_sys = Some (rs, s) ->
    (length (workers s) <= j)%nat ->
    times j p evs = 0%nat.
Proof.
  induction evs as [|e evs IH] using rev_ind; intros rs s j Hex Hj;
    [reflexivity|].
  destruct (exec_snoc env evs e _ _ _ Hex) as (rs1 & s1 & r & Hex1 & Hstep).
  pose proof (sys_step_workers_length env e s1 s r Hstep) as Hlen.
  rewrite times_snoc, (IH rs1 s1 j Hex1) by lia.
  destruct e; try reflexivity. simpl in *.
  destruct (Nat.eqb_spec i j) as [->|]; [|reflexivity].
  destruct (workers s1 !! j) as [w|] eqn:Hw; [|discriminate].
  apply lookup_lt_Some in Hw. lia.
Qed.

(** A count kept in the state of a worker that every piece raises by one
    exactly when it is of kind [p] counts the events of kind [p]. *)
Lemma history_count (p : wevent -> bool) (c : Worker -> nat) :
  (forall steps, c (new_worker steps) = 0%nat) ->
  (forall env ev w w' g g',
     worker_ok w -> worker_step env ev w g = Some (w', g') ->
     c w' = (c w + bool_nat (p ev))%nat) ->
  forall (env : Env) (evs : list event) (rs : list response) (s : Sys)
         (i : nat) (w : Worker),
    exec env evs initial_sys = Some (rs, s) ->
    workers s !! i = Some w ->
    times i p evs = c w.
Proof.
  intros Hnew Hstepc env evs.
  induction evs as [|e evs IH] using rev_ind; intros rs s i w Hex Hi.
  - injection Hex as _ <-. discriminate Hi.
  - destruct (exec_snoc env evs e _ _ _ Hex) as (rs1 & s1 & r & Hex1 & Hstep).
    rewrite times_snoc.
    assert (reachable env s1) as Hr1
      by exact (exec_reachable env evs _ _ _ (reachable_init env) Hex1).
    destruct e; simpl in Hstep.
    + injection Hstep as _ <-. rewrite (IH _ _ _ _ Hex1 Hi). simpl. lia.
    + destruct (run_test env req started (globals s1)) as [[resp|steps] g'];
        injection Hstep as _ <-; simpl in Hi.
      * rewrite (IH _ _ _ _ Hex1 Hi). simpl. lia.
      * destruct (Nat.lt_ge_cases i (length (workers s1))) as [Hlt|Hge].
        -- rewrite lookup_app_l in Hi by exact Hlt.
           rewrite (IH _ _ _ _ Hex1 Hi). simpl. lia.
        -- rewrite (times_unborn env p evs rs1 s1 i Hex1 Hge).
           rewrite lookup_app_r in Hi by exact Hge.
           destruct (i - length (workers s1))%nat; [|discriminate Hi].
           injection Hi as <-. rewrite Hnew. reflexivity.
    + injection Hstep as _ <-. rewrite (IH _ _ _ _ Hex1 Hi). simpl. lia.
    + destruct (stop_test_check (globals s1)); injection Hstep as _ <-;
        simpl in Hi; rewrite (IH _ _ _ _ Hex1 Hi); simpl; lia.
    + destruct (handlers s1 !! k) as [h|]; [|discriminate].
      destruct (handler_step h (globals s1)) as [[[r0 g'] h']|];
        [|discriminate].
      injection Hstep as _ <-. simpl in Hi.
      rewrite (IH _ _ _ _ Hex1 Hi). simpl. lia.
    + destruct (workers s1 !! i0) as [w0|] eqn:Hi0; [|discriminate].
      destruct (worker_step env ev w0 (globals s1)) as [[w' g']|] eqn:Hws;
        [|discriminate].
      injection Hstep as _ <-. simpl in Hi. simpl.
      destruct (Nat.eqb_spec i0 i) as [->|Hne].
      * rewrite list_lookup_insert_eq in Hi
          by exact (lookup_lt_Some _ _ _ Hi0).
        injection Hi as <-.
        rewrite (IH _ _ _ _ Hex1 Hi0). simpl.
        symmetry.
        exact (Hstepc env ev w0 w' _ _ (reachable_worker_ok env s1 i w0 Hr1 Hi0)
                 Hws).
      * rewrite list_lookup_insert_ne in Hi by exact Hne.
        rewrite (IH _ _ _ _ Hex1 Hi). simpl. lia.
Qed.

Ltac step_count :=
  let Hok := fresh "Hok" in
  let H := fresh "H" in
  intros env ev [st pc br po ca] w' g g' Hok H;
  unfold worker_ok, closing_trace in Hok;
  unfold worker_step, enter_finally, at_pc, with_poller, with_browser in H;
  cbn [w_pc w_steps w_browser w_poller w_calls] in *;
  destruct pc; break_step H;
  repeat match goal with
    | H : _ /\ _ |- _ => destruct H
    | H : _ \/ _ |- _ => destruct H
    | H : exists _, _ |- _ => destruct H
    end; subst; try discriminate;
  unfold count_call, live;
  cbn [w_pc w_steps w_browser w_poller w_calls];
  rewrite ?app_nil_r; reflexivity.

Lemma browser_built_step :
  forall env ev w w' g g',
    worker_ok w -> worker_step env ev w g = Some (w', g') ->
    bool_nat (w_browser w') =
      (bool_nat (w_browser w) + bool_nat (browser_built ev))%nat.
Proof. step_count. Qed.

Lemma agent_built_step :
  forall env ev w w' g g',
    worker_ok w -> worker_step env ev w g = Some (w', g') ->
    count_call is_create_task w' =
      (count_call is_create_task w + bool_nat (agent_built ev))%nat.
Proof. step_count. Qed.

Lemma task_created_step :
  forall env ev w w' g g',
    worker_ok w -> worker_step env ev w g = Some (w', g') ->
    count_call is_agent_run w' =
      (count_call is_agent_run w + bool_nat (task_created ev))%nat.
Proof. step_count. Qed.

Lemma agent_ended_step :
  forall env ev w w' g g',
    worker_ok w -> worker_step env ev w g = Some (w', g') ->
    count_call is_cancel w' =
      (count_call is_cancel w + bool_nat (agent_ended ev))%nat.
Proof. step_count. Qed.

Lemma close_ended_step :
  forall env ev w w' g g',
    worker_ok w -> worker_step env ev w g = Some (w', g') ->
    bool_nat (negb (live w') && w_browser w') =
      (bool_nat (negb (live w) && w_browser w) + bool_nat (close_ended ev))%nat.
Proof. step_count. Qed.

(** ** Release of the browser *)

(** A run whose browser construction fails ends in the terminal status
    "error" with its worker returned and no close ever attempted. *)
Lemma no_release_without_browser :
  let env := mkEnv (Some "key") true in
  let req := Ok (JObj [("testSteps", JStr "go to example.com")]) in
  exists rs s w,
    exec env [HttpRunTest req (Ok tt); Work 0 (EvRunnerInit (Ok tt));
              Work 0 (EvBrowserInit (Raise (Exn "no display" "trace")))]
      initial_sys = Some (rs, s)
    /\ test_status (globals s) = "error"
    /\ terminal (test_status (globals s)) = true
    /\ workers s = [w]
    /\ w_pc w = WDone
    /\ close_attempts w = 0%nat.
Proof.
  do 3 eexists. split; [reflexivity|]. repeat split.
Qed.

(** C2 (amended). After any sequence of events, a worker holds a browser
    handle exactly when [Browser(...)] returned one to it.  It calls the
    handle's close at most once and not before it enters its [finally]; once
    it has returned, it has called close, and the close has ended, exactly
    once if [Browser(...)] returned a handle and not at all otherwise.  The
    close, whether it returns or raises, appends one log line and leaves the
    recorded status as it was. *)
Theorem browser_release_once
    (env : Env) (evs : list event) (rs : list response) (s : Sys)
    (i : nat) (w : Worker) :
  exec env evs initial_sys = Some (rs, s) ->
  workers s !! i = Some w ->
  times i browser_built evs = bool_nat (w_browser w)
  /\ (close_attempts w <= 1)%nat
  /\ (w_pc w <> WClosing -> w_pc w <> WDone ->
      close_attempts w = 0%nat /\ times i close_ended evs = 0%nat)
  /\ (w_pc w = WDone ->
      close_attempts w = times i browser_built evs
      /\ times i close_ended evs = times i browser_built evs)
  /\ (w_pc w = WClosing ->
      times i browser_built evs = 1%nat
      /\ w_browser w = true
      /\ close_attempts w = 1%nat
      /\ times i close_ended evs = 0%nat
      /\ forall r : result unit,
           sys_step env (Work i (EvClose r)) s =
             Some (None,
                   mkSys (log (close_line r) (globals s))
                         (<[i := at_pc WDone [] w]> (workers s))
                         (handlers s))
           /\ test_status (log (close_line r) (globals s)) =
                test_status (globals s)
           /\ close_attempts (at_pc WDone [] w) = 1%nat).
Proof.
  intros Hex Hi.
  pose proof (history_count browser_built (fun w => bool_nat (w_browser w))
                (fun _ => eq_refl) browser_built_step env evs rs s i w Hex Hi)
    as Hb.
  pose proof (history_count close_ended
                (fun w => bool_nat (negb (live w) && w_browser w))
                (fun _ => eq_refl) close_ended_step env evs rs s i w Hex Hi)
    as Hc.
  pose proof (reachable_worker_ok env s i w
                (exec_reachable env evs _ _ _ (reachable_init env) Hex) Hi)
    as Hok.
  rewrite Hb, Hc. clear Hb Hc.
  unfold worker_ok, closing_trace in Hok. unfold close_attempts, live.
  destruct w as [st pc br po ca]. simpl in *.
  assert (forall r : result unit, pc = WClosing ->
            sys_step env (Work i (EvClose r)) s =
              Some (None,
                    mkSys (log (close_line r) (globals s))
                          (<[i := at_pc WDone [] (mkWorker st pc br po ca)]>
                             (workers s)) (handlers s))) as Hclose.
  { intros r ->. unfold sys_step. rewrite Hi. destruct r; reflexivity. }
  destruct pc; simpl in *;
    repeat match goal with
      | H : _ /\ _ |- _ => destruct H
      | H : _ \/ _ |- _ => destruct H
      | H : exists _, _ |- _ => destruct H
      end; subst; simpl;
    repeat split; intros; try congruence; try lia; auto.
Qed.

Lemma browser_release_once_witness :
  let env := mkEnv (Some "key") true in
  let evs := [HttpRunTest (Ok (JObj [("testSteps", JStr "t")])) (Ok tt);
              Work 0 (EvRunnerInit (Ok tt)); Work 0 (EvBrowserInit (Ok tt));
              Work 0 (EvAgentInit (Raise (Exn "bad model" "")));
              Work 0 (EvClose (Raise (Exn "gone" "")))] in
  let w := mkWorker "t" WDone true None
             (trace_agent "t" ++ [CallClose])%list in
  times 0 browser_built evs = 1%nat
  /\ close_attempts w = times 0 browser_built evs
  /\ times 0 close_ended evs = times 0 browser_built evs.
Proof.
  intros env evs w.
  destruct (browser_release_once env evs []
              (mkSys (mkGlobals (Some "t") "error"
                        ["Test steps received";
                         "Preparing to start test execution...";
                         "Starting WebTestAssistant...";
                         "Initializing browser with remote debugging...";
                         "Browser initialized successfully";
                         "Starting AI agent...";
                         "Browser view will be available shortly...";
                         "Failed to create AI agent: bad model";
                         "Error closing browser: gone"] None "")
                     [w] [HStartRespond])
              0 w eq_refl eq_refl) as (Hb & _ & _ & Hd & _).
  destruct (Hd eq_refl) as [H1 H2].
  split; [exact Hb|]. split; [exact H1 | exact H2].
Defined.

(** ** Failures outside the stage handlers *)

(** When the construction of the runner raises, the handler of
    [run_async_test] records status "error" and the error text, and no log
    line holds the traceback text. *)
Lemma runner_failure_logs_no_traceback :
  let env := mkEnv (Some "key") true in
  let req := Ok (JObj [("testSteps", JStr "go to example.com")]) in
  let e := Exn "quota exceeded" "Traceback (most recent call last): llm" in
  exists rs s w,
    exec env [HttpRunTest req (Ok tt); Work 0 (EvRunnerInit (Raise e))]
      initial_sys = Some (rs, s)
    /\ workers s = [w] /\ w_pc w = WDone
    /\ test_status (globals s) = "error"
    /\ test_logs (globals s) =
         ["Test steps received"; "Preparing to start test execution...";
          "Failed to initialize test runner: quota exceeded"]
    /\ forallb (fun l => negb (PyStr.contains (exn_tb e) l))
         (test_logs (globals s)) = true.
Proof.
  do 3 eexists. split; [reflexivity|]. repeat split.
Qed.

(** C3 (amended). An exception raised in [TestRunner.run_test] outside its
    stage handlers is caught by its outer handler: status "error", then the
    lines "Unexpected error: <text>" and "Traceback: <trace>", and the worker
    goes on to its [finally].  An exception raised while the runner is
    constructed is caught by [run_async_test]: status "error" and the one
    line "Failed to initialize test runner: <text>", and the worker returns.
    No piece of a worker yields a response, and every request is answered
    from the shared state whatever the workers did. *)
Theorem worker_failure_recorded
    (env : Env) (s : Sys) (i : nat) (w : Worker) (e : exn) :
  workers s !! i = Some w ->
  (w_pc w = WCreateTask ->
   sys_step env (Work i (EvCreateTask (Raise e))) s =
     Some (None,
           mkSys (mkGlobals (current_test (globals s)) "error"
                    (test_logs (globals s) ++
                       ["Unexpected error: " ++ exn_msg e;
                        "Traceback: " ++ exn_tb e])
                    (browser_screenshot (globals s)) (browser_url (globals s)))
                 (<[i := enter_finally w]> (workers s)) (handlers s)))
  /\ (w_pc w = WRunnerInit ->
      forall r, runner_init env r = Raise e ->
      sys_step env (Work i (EvRunnerInit r)) s =
        Some (None,
              mkSys (mkGlobals (current_test (globals s)) "error"
                       (test_logs (globals s) ++
                          ["Failed to initialize test runner: " ++ exn_msg e])
                       (browser_screenshot (globals s))
                       (browser_url (globals s)))
                    (<[i := at_pc WDone [] w]> (workers s)) (handlers s)))
  /\ (forall ev r s', sys_step env (Work i ev) s = Some (r, s') -> r = None)
  /\ (forall req started,
        (exists resp s',
           sys_step env (HttpRunTest req started) s = Some (Some resp, s'))
        \/ (exists steps,
              sys_step env (HttpRunTest req started) s =
                Some (None,
                      mkSys (reset_globals steps)
                            (workers s ++ [new_worker steps])
                            (handlers s ++ [HStartRespond]))))
  /\ (forall k, handlers s !! k = Some HStartRespond ->
      sys_step env (Handler k) s =
        Some (Some (started_response (globals s)),
              mkSys (globals s) (workers s)
                    (<[k := HReturned]> (handlers s))))
  /\ sys_step env HttpStatus s = Some (Some (get_test_status (globals s)), s).
Proof.
  intros Hi. repeat split.
  - intros Hpc. unfold sys_step, worker_step. rewrite Hi, Hpc.
    unfold unexpected_error, log, set_status. simpl.
    rewrite <- app_assoc. reflexivity.
  - intros Hpc r Hr. unfold sys_step, worker_step. rewrite Hi, Hpc, Hr.
    reflexivity.
  - intros ev r s' H. unfold sys_step in H. rewrite Hi in H.
    destruct (worker_step env ev w (globals s)) as [[w' g']|];
      [injection H as <- _; reflexivity | discriminate].
  - intros req started. unfold sys_step.
    destruct (run_test env req started (globals s)) as [[resp|st] g'] eqn:Hrun;
      [left; eauto|].
    right. exists st.
    destruct (run_test_started env req started _ _ _ Hrun) as (-> & _).
    reflexivity.
  - intros k Hk. unfold sys_step. rewrite Hk. reflexivity.
Qed.

Lemma worker_failure_recorded_witness :
  let env := mkEnv (Some "key") true in
  let w := mkWorker "t" WCreateTask true None (trace_task "t") in
  let s := mkSys (mkGlobals (Some "t") "running" ["a"] None "") [w] [] in
  sys_step env (Work 0 (EvCreateTask (Raise (Exn "boom" "file app.py")))) s =
    Some (None,
          mkSys (mkGlobals (Some "t") "error"
                   ["a"; "Unexpected error: boom"; "Traceback: file app.py"]
                   None "")
                [mkWorker "t" WClosing true None
                   (trace_task "t" ++ [CallClose])%list] []).
Proof.
  intros env w s.
  destruct (worker_failure_recorded env s 0 w (Exn "boom" "file app.py")
              eq_refl) as (H & _).
  exact (H eq_refl).
Defined.

(** ** The agent stage *)

(** An accepted run whose browser construction fails returns without ever
    calling the agent's run. *)
Lemma agent_not_run_without_browser :
  let env := mkEnv (Some "key") true in
  let req := Ok (JObj [("testSteps", JStr "go to example.com")]) in
  exists r s w,
    exec env [HttpRunTest req (Ok tt); Handler 0;
              Work 0 (EvRunnerInit (Ok tt));
              Work 0 (EvBrowserInit (Raise (Exn "no display" "trace")))]
      initial_sys = Some ([r], s)
    /\ code r = 200
    /\ workers s = [w]
    /\ w_pc w = WDone
    /\ w_calls w = [CallRunnerInit; CallBrowser false]
    /\ existsb is_agent_run (w_calls w) = false.
Proof.
  do 3 eexists. split; [reflexivity|]. repeat split.
Qed.

(** C8 (amended). After any sequence of events: a worker to which
    [Agent(...)] returned an agent had a browser handle, built the agent on
    the task "Execute the following test steps:" + newline + steps, and went
    on to create the poller task; a worker to which [create_task] returned
    the poller task called [agent.run(max_steps=25)] next, has its poller
    task, and awaits that run until it ends.  Whenever a worker awaits the
    agent's run, its calls were: runner, visible browser, agent on that task,
    poller task, run with 25 steps.  When the run returns, "Test execution
    completed successfully!" is logged and the status becomes "completed";
    when it raises, "Test execution error: <text>" is logged and the status
    becomes "error"; then the poller is cancelled. *)
Theorem agent_stage
    (env : Env) (evs : list event) (rs : list response) (s : Sys)
    (i : nat) (w : Worker) :
  exec env evs initial_sys = Some (rs, s) ->
  workers s !! i = Some w ->
  ((0 < times i agent_built evs)%nat ->
   times i browser_built evs = 1%nat
   /\ In (CallAgent (agent_task (w_steps w))) (w_calls w)
   /\ In CallCreateTask (w_calls w))
  /\ ((0 < times i task_created evs)%nat ->
      (exists more,
         w_calls w =
           ([CallRunnerInit; CallBrowser false;
             CallAgent (agent_task (w_steps w));
             CallCreateTask; CallAgentRun 25] ++ more)%list)
      /\ (exists p, w_poller w = Some p)
      /\ (times i agent_ended evs = 0%nat -> w_pc w = WAgentRun))
  /\ (w_pc w = WCreateTask ->
      times i agent_built evs = 1%nat
      /\ sys_step env (Work i (EvCreateTask (Ok tt))) s =
           Some (None,
                 mkSys (globals s)
                   (<[i := mkWorker (w_steps w) WAgentRun true
                             (Some PollSleeping)
                             [CallRunnerInit; CallBrowser false;
                              CallAgent (agent_task (w_steps w));
                              CallCreateTask; CallAgentRun 25]]>
                      (workers s))
                   (handlers s)))
  /\ (w_pc w = WAgentRun ->
      times i task_created evs = 1%nat
      /\ times i agent_ended evs = 0%nat
      /\ w_calls w = [CallRunnerInit; CallBrowser false;
                      CallAgent (agent_task (w_steps w));
                      CallCreateTask; CallAgentRun 25]
      /\ (exists p, w_poller w = Some p)
      /\ forall r : result unit,
           sys_step env (Work i (EvAgentRun r)) s =
             Some (None,
                   mkSys (agent_outcome r (globals s))
                         (<[i := at_pc WAwaitPoller [CallCancelPoller] w]>
                            (workers s))
                         (handlers s))).
Proof.
  intros Hex Hi.
  pose proof (history_count browser_built (fun w => bool_nat (w_browser w))
                (fun _ => eq_refl) browser_built_step env evs rs s i w Hex Hi)
    as Hb.
  pose proof (history_count agent_built (count_call is_create_task)
                (fun _ => eq_refl) agent_built_step env evs rs s i w Hex Hi)
    as Ha.
  pose proof (history_count task_created (count_call is_agent_run)
                (fun _ => eq_refl) task_created_step env evs rs s i w Hex Hi)
    as Ht.
  pose proof (history_count agent_ended (count_call is_cancel)
                (fun _ => eq_refl) agent_ended_step env evs rs s i w Hex Hi)
    as He.
  pose proof (reachable_worker_ok env s i w
                (exec_reachable env evs _ _ _ (reachable_init env) Hex) Hi)
    as Hok.
  rewrite Hb, Ha, Ht, He. clear Hb Ha Ht He.
  unfold worker_ok, closing_trace in Hok. unfold count_call.
  destruct w as [st pc br po ca]. simpl in *.
  assert (pc = WCreateTask -> ca = trace_task st -> br = true ->
          sys_step env (Work i (EvCreateTask (Ok tt))) s =
            Some (None,
                  mkSys (globals s)
                    (<[i := mkWorker st WAgentRun true (Some PollSleeping)
                              [CallRunnerInit; CallBrowser false;
                               CallAgent (agent_task st);
                               CallCreateTask; CallAgentRun 25]]>
                       (workers s))
                    (handlers s))) as Hcreate.
  { intros -> -> ->. unfold sys_step. rewrite Hi. reflexivity. }
  assert (forall r : result unit, pc = WAgentRun ->
          sys_step env (Work i (EvAgentRun r)) s =
            Some (None,
                  mkSys (agent_outcome r (globals s))
                        (<[i := at_pc WAwaitPoller [CallCancelPoller]
                                  (mkWorker st pc br po ca)]> (workers s))
                        (handlers s))) as Hrun.
  { intros r ->. unfold sys_step. rewrite Hi. destruct r; reflexivity. }
  destruct pc; simpl in *;
    repeat match goal with
      | H : _ /\ _ |- _ => destruct H
      | H : _ \/ _ |- _ => destruct H
      | H : exists _, _ |- _ => destruct H
      end; subst; simpl;
    repeat split; intros; try congruence; try lia; auto;
    try (eexists; reflexivity); simpl; auto 10.
Qed.

Lemma agent_stage_witness :
  let env := mkEnv (Some "key") true in
  let evs := [HttpRunTest (Ok (JObj [("testSteps", JStr "open page")])) (Ok tt);
              Work 0 (EvRunnerInit (Ok tt)); Work 0 (EvBrowserInit (Ok tt));
              Work 0 (EvAgentInit (Ok tt)); Work 0 (EvCreateTask (Ok tt))] in
  let w := mkWorker "open page" WAgentRun true (Some PollSleeping)
             (trace_run "open page") in
  let g := mkGlobals (Some "open page") "running"
             ["Test steps received"; "Preparing to start test execution...";
              "Starting WebTestAssistant...";
              "Initializing browser with remote debugging...";
              "Browser initialized successfully"; "Starting AI agent...";
              "Browser view will be available shortly...";
              "AI agent created successfully"; "Running test automation..."]
             None "" in
  w_pc w = WAgentRun
  /\ sys_step env (Work 0 (EvAgentRun (Raise (Exn "timeout" ""))))
       (mkSys g [w] [HStartRespond]) =
       Some (None,
             mkSys (agent_outcome (Raise (Exn "timeout" "")) g)
                   [at_pc WAwaitPoller [CallCancelPoller] w] [HStartRespond]).
Proof.
  intros env evs w g.
  destruct (agent_stage env evs [] (mkSys g [w] [HStartRespond]) 0 w
              eq_refl eq_refl) as (_ & Ht & _ & Hr).
  split; [exact (proj2 (proj2 (Ht ltac:(vm_compute; lia))) eq_refl)|].
  destruct (Hr eq_refl) as (_ & _ & _ & _ & Hrun).
  exact (Hrun (Raise (Exn "timeout" ""))).
Defined.

(** ** Base64 *)

Module Base64Facts.

Import Base64 Base64Check.

Lemma in_range (n : nat) (z : Z) : 0 <= z < Z.of_nat n -> In z (range n).
Proof.
  intros H. unfold range. apply in_map_iff. exists (Z.to_nat z).
  split; [lia | apply in_seq; lia].
Qed.

Lemma all1_spec (n : nat) (p : Z -> bool) :
  all1 n p = true -> forall z, 0 <= z < Z.of_nat n -> p z = true.
Proof.
  intros H z Hz. exact (proj1 (forallb_forall p (range n)) H z (in_range n z Hz)).
Qed.

Lemma all2_spec (n : nat) (p : Z -> Z -> bool) :
  all2 n p = true ->
  forall a b, 0 <= a < Z.of_nat n -> 0 <= b < Z.of_nat n -> p a b = true.
Proof.
  intros H a b Ha Hb. unfold all2 in H.
  pose proof (proj1 (forallb_forall _ (range n)) H a (in_range n a Ha)) as H1.
  exact (proj1 (forallb_forall _ (range n)) H1 b (in_range n b Hb)).
Qed.

Lemma byte_val_range (b : byte) : 0 <= byte_val b < Z.of_nat 256.
Proof.
  unfold byte_val. pose proof (Byte.to_N_bounded b). lia.
Qed.

Lemma byte_of_val (b : byte) : byte_of (byte_val b) = Some b.
Proof.
  unfold byte_of, byte_val. rewrite N2Z.id. apply Byte.of_to_N.
Qed.

Lemma char_good_all : all1 64 char_good = true.
Proof. vm_compute. reflexivity. Qed.

Lemma char_index (n : Z) :
  0 <= n < 64 ->
  b64_index (b64_char n) = Some n /\ Ascii.eqb (b64_char n) "="%char = false.
Proof.
  intros Hn. pose proof (all1_spec 64 char_good char_good_all n) as H.
  unfold char_good in H. specialize (H ltac:(lia)).
  destruct (b64_index (b64_char n)) as [m|]; [|discriminate].
  apply andb_true_iff in H as [H1 H2].
  apply Z.eqb_eq in H1. apply negb_true_iff in H2. subst. auto.
Qed.

Lemma group_good_all : all2 256 group_good = true.
Proof. vm_compute. reflexivity. Qed.

Lemma group_facts (x y : byte) :
  let a := byte_val x in
  let b := byte_val y in
  (0 <= sextet0 a < 64) /\ (0 <= sextet1 a b < 64)
  /\ (0 <= sextet2 a b < 64) /\ (0 <= sextet3 a < 64)
  /\ Z.lor (Z.shiftl (sextet0 a) 2) (Z.shiftr (sextet1 a b) 4) = a
  /\ Z.land (sextet1 a b) 15 = Z.shiftr b 4
  /\ Z.lor (Z.shiftl (Z.shiftr a 4) 4) (Z.shiftr (sextet2 a b) 2) = a
  /\ Z.land (sextet2 a b) 3 = Z.shiftr b 6
  /\ Z.lor (Z.shiftl (Z.shiftr b 6) 6) (sextet3 b) = b.
Proof.
  intros a b.
  pose proof (all2_spec 256 group_good group_good_all a b
                (byte_val_range x) (byte_val_range y)) as H.
  unfold group_good in H.
  repeat match type of H with
    | (_ && _) = true => let H' := fresh in apply andb_true_iff in H as [H H']
    end.
  repeat match goal with
    | H : (_ <? _) = true |- _ => apply Z.ltb_lt in H
    | H : (_ <=? _) = true |- _ => apply Z.leb_le in H
    | H : (_ =? _) = true |- _ => apply Z.eqb_eq in H
    end.
  repeat split; assumption.
Qed.

(** The decoder on one full group of four alphabet characters. *)
Lemma decode_full (c0 c1 c2 c3 : ascii) (r : string) (s0 s1 s2 s3 : Z) :
  b64_index c0 = Some s0 -> b64_index c1 = Some s1 ->
  b64_index c2 = Some s2 -> b64_index c3 = Some s3 ->
  Ascii.eqb c2 "="%char = false -> Ascii.eqb c3 "="%char = false ->
  b64decode (String c0 (String c1 (String c2 (String c3 r)))) =
    match byte_of (Z.lor (Z.shiftl s0 2) (Z.shiftr s1 4)),
          byte_of (Z.lor (Z.shiftl (Z.land s1 15) 4) (Z.shiftr s2 2)),
          byte_of (Z.lor (Z.shiftl (Z.land s2 3) 6) s3),
          b64decode r with
    | Some a', Some b', Some c', Some tl => Some (a' :: b' :: c' :: tl)
    | _, _, _, _ => None
    end.
Proof.
  intros H0 H1 H2 H3 E2 E3. cbn [b64decode].
  rewrite H0, H1, E2, H2, E3, H3. reflexivity.
Qed.

(** Lists, three elements at a time. *)
Lemma list_ind3 (A : Type) (P : list A -> Prop) :
  P [] -> (forall a, P [a]) -> (forall a b, P [a; b]) ->
  (forall a b c r, P r -> P (a :: b :: c :: r)) ->
  forall l, P l.
Proof.
  intros H0 H1 H2 H3.
  fix IH 1.
  intros [|a [|b [|c r]]];
    [exact H0 | exact (H1 a) | exact (H2 a b) | exact (H3 a b c r (IH r))].
Qed.

(** Decoding undoes encoding. *)
Lemma b64decode_b64encode (bs : list byte) :
  b64decode (b64encode bs) = Some bs.
Proof.
  induction bs as [|x|x y|x y z r IH] using list_ind3.
  - reflexivity.
  - destruct (group_facts x Byte.x00) as (R0 & R1 & _ & _ & Ea & Ep & _).
    change (byte_val Byte.x00) with 0 in *.
    destruct (char_index _ R0) as [I0 _], (char_index _ R1) as [I1 _].
    cbn [b64encode b64decode]. rewrite I0, I1.
    change (Ascii.eqb "="%char "="%char) with true. cbn [andb].
    rewrite Ep. change (Z.shiftr 0 4 =? 0) with true. cbn iota.
    rewrite Ea, byte_of_val. reflexivity.
  - destruct (group_facts x y) as (R0 & R1 & _ & _ & Ea & El & _).
    destruct (group_facts y Byte.x00) as (_ & _ & R2 & _ & _ & _ & Eb & Ep & _).
    change (byte_val Byte.x00) with 0 in *.
    destruct (char_index _ R0) as [I0 _], (char_index _ R1) as [I1 _],
      (char_index _ R2) as [I2 N2].
    cbn [b64encode b64decode]. rewrite I0, I1, N2, I2.
    change (Ascii.eqb "="%char "="%char) with true. cbn iota.
    rewrite Ep. change (Z.shiftr 0 6 =? 0) with true. cbn iota.
    rewrite El, Ea, Eb, !byte_of_val. reflexivity.
  - destruct (group_facts x y) as (R0 & R1 & _ & _ & Ea & El & _).
    destruct (group_facts y z) as (_ & _ & R2 & _ & _ & _ & Eb & El2 & Ec).
    destruct (group_facts z z) as (_ & _ & _ & R3 & _).
    destruct (char_index _ R0) as [I0 _], (char_index _ R1) as [I1 _],
      (char_index _ R2) as [I2 N2], (char_index _ R3) as [I3 N3].
    cbn [b64encode].
    rewrite (decode_full _ _ _ _ _ _ _ _ _ I0 I1 I2 I3 N2 N3).
    rewrite Ea, El, Eb, El2, Ec, !byte_of_val, IH. reflexivity.
Qed.

End Base64Facts.

(** ** The screenshot field *)

(** The poller stores a capture after a stop request changed the status to
    "stopped": the loop test precedes the await of the capture.  The reset of
    an accepted start also assigns the field, with the status going from
    "stopped" to "starting". *)
Lemma screenshot_written_when_stopped :
  let env := mkEnv (Some "key") true in
  let req := Ok (JObj [("testSteps", JStr "go to example.com")]) in
  exists rs s s1 r2 s2,
    exec env [HttpRunTest req (Ok tt); Work 0 (EvRunnerInit (Ok tt));
              Work 0 (EvBrowserInit (Ok tt)); Work 0 (EvAgentInit (Ok tt));
              Work 0 (EvCreateTask (Ok tt));
              Work 0 (EvPollWake (Some "https://example.com/"));
              HttpStop; Handler 1; Handler 1] initial_sys = Some (rs, s)
    /\ test_status (globals s) = "stopped"
    /\ browser_screenshot (globals s) = None
    /\ sys_step env (Work 0 (EvPollShot (Ok [Byte.x41; Byte.x42; Byte.x43]))) s =
         Some (None, s1)
    /\ in_flight (test_status (globals s)) = false
    /\ in_flight (test_status (globals s1)) = false
    /\ browser_screenshot (globals s1) = Some "QUJD"
    /\ sys_step env (HttpRunTest req (Ok tt)) s1 = Some (r2, s2)
    /\ browser_screenshot (globals s2) = None
    /\ test_status (globals s2) = "starting"
    /\ in_flight (test_status (globals s2)) = false.
Proof.
  do 5 eexists. split; [vm_compute; reflexivity|].
  split; [reflexivity|]. split; [reflexivity|].
  split; [vm_compute; reflexivity|].
  split; [reflexivity|]. split; [reflexivity|]. split; [reflexivity|].
  split; [vm_compute; reflexivity|].
  split; [reflexivity|]. split; reflexivity.
Qed.

(** A worker's poller starts to await a capture only in the piece that ran
    the loop test, and the status it read there was "running" or
    "initializing". *)
Lemma poller_capture_seen
    (env : Env) (ev : wevent) (w w' : Worker) (g g' : Globals) (seen : string) :
  worker_step env ev w g = Some (w', g') ->
  w_poller w' = Some (PollCapturing seen) ->
  w_poller w = Some (PollCapturing seen)
  \/ (exists page, ev = EvPollWake page)
     /\ seen = test_status g /\ in_flight (test_status g) = true.
Proof.
  unfold worker_step, enter_finally. intros H Hp.
  destruct w as [st pc br po ca]. simpl in *.
  destruct pc; break_step H; simpl in Hp; try discriminate Hp;
    try (left; exact Hp).
  injection Hp as <-. right. eauto.
Qed.

(** C5 (amended). In every reachable state the screenshot field is null or
    the base64 text of some byte string, which decodes back to those bytes.
    A step that changes the field is either the first piece of a start
    request that passes the checks, which sets it to null with status
    "starting", or the resumption of a poller after a capture that returned
    bytes, which stores their base64 text; that poller read status "running"
    or "initializing" at the loop test of the same iteration. *)
Theorem screenshot_field
    (env : Env) (s s' : Sys) (e : event) (r : option response) :
  reachable env s ->
  sys_step env e s = Some (r, s') ->
  (browser_screenshot (globals s') = None
   \/ exists b : list byte,
        browser_screenshot (globals s') = Some (Base64.b64encode b)
        /\ Base64.b64decode (Base64.b64encode b) = Some b)
  /\ (browser_screenshot (globals s') = browser_screenshot (globals s)
      \/ (exists req started,
            e = HttpRunTest req started
            /\ accepted env req (globals s) = true
            /\ browser_screenshot (globals s') = None
            /\ test_status (globals s') = "starting")
      \/ (exists (i : nat) (w : Worker) (b : list byte) (seen : string),
            e = Work i (EvPollShot (Ok b))
            /\ workers s !! i = Some w
            /\ w_pc w = WAgentRun
            /\ w_poller w = Some (PollCapturing seen)
            /\ in_flight seen = true
            /\ browser_screenshot (globals s') = Some (Base64.b64encode b))).
Proof.
  intros Hr Hstep. split.
  - pose proof (reachable_ok env s' (reachable_step env s s' e r Hr Hstep))
      as [_ [H|[b H]]]; [left; exact H|].
    right. exists b. split; [exact H | apply Base64Facts.b64decode_b64encode].
  - destruct e; simpl in Hstep.
    + injection Hstep as <- <-. left. reflexivity.
    + pose proof (run_test_globals env req started (globals s)) as Hgl.
      destruct (run_test env req started (globals s)) as [[resp|steps] g'];
        injection Hstep as <- <-; simpl in *;
        (destruct Hgl as [[_ ->]|(Hacc & st & _ & ->)];
         [left; reflexivity | right; left; exists req, started; auto]).
    + injection Hstep as <- <-. left. reflexivity.
    + destruct (stop_test_check (globals s));
        injection Hstep as <- <-; left; reflexivity.
    + destruct (handlers s !! k) as [h|]; [|discriminate].
      destruct (handler_step h (globals s)) as [[[r0 g'] h']|] eqn:Hh;
        [|discriminate].
      injection Hstep as <- <-. left.
      exact (proj1 (proj2 (handler_step_frame _ _ _ _ _ Hh))).
    + destruct (workers s !! i) as [w|] eqn:Hi; [|discriminate].
      destruct (worker_step env ev w (globals s)) as [[w' g']|] eqn:Hws;
        [|discriminate].
      injection Hstep as <- <-. simpl.
      destruct (worker_step_screenshot env ev w w' _ _ Hws)
        as [H|(b & seen & -> & Hpc & Hp & H)]; [left; exact H|].
      right. right. exists i, w, b, seen.
      pose proof (reachable_worker_ok env s i w Hr Hi) as Hok.
      unfold worker_ok in Hok. rewrite Hpc in Hok.
      destruct Hok as (_ & _ & p & Hp' & Hpok).
      rewrite Hp in Hp'. injection Hp' as <-.
      repeat split; assumption.
Qed.

Lemma screenshot_field_witness :
  let env := mkEnv (Some "key") true in
  let w := mkWorker "t" WAgentRun true (Some (PollCapturing "running"))
             (trace_run "t") in
  let g := mkGlobals (Some "t") "running"
             ["Test steps received"; "Preparing to start test execution...";
              "Starting WebTestAssistant...";
              "Initializing browser with remote debugging...";
              "Browser initialized successfully"; "Starting AI agent...";
              "Browser view will be available shortly...";
              "AI agent created successfully"; "Running test automation..."]
             None "http://a/" in
  browser_screenshot (set_screenshot (Some "QUI=") g) = None
  \/ exists b : list byte,
       browser_screenshot (set_screenshot (Some "QUI=") g) =
         Some (Base64.b64encode b)
       /\ Base64.b64decode (Base64.b64encode b) = Some b.
Proof.
  intros env w g.
  assert (reachable env (mkSys g [w] [HStartRespond])) as Hr.
  { apply (exec_reachable env
             [HttpRunTest (Ok (JObj [("testSteps", JStr "t")])) (Ok tt);
              Work 0 (EvRunnerInit (Ok tt)); Work 0 (EvBrowserInit (Ok tt));
              Work 0 (EvAgentInit (Ok tt)); Work 0 (EvCreateTask (Ok tt));
              Work 0 (EvPollWake (Some "http://a/"))]
             initial_sys (mkSys g [w] [HStartRespond]) []);
      [constructor | reflexivity]. }
  exact (proj1 (screenshot_field env (mkSys g [w] [HStartRespond])
                  (mkSys (set_screenshot (Some "QUI=") g)
                         [mkWorker "t" WAgentRun true (Some PollSleeping)
                            (trace_run "t")] [HStartRespond])
                  (Work 0 (EvPollShot (Ok [Byte.x41; Byte.x42]))) None
                  Hr eq_refl)).
Defined.

(** * Further properties of the handlers *)

(** ** Outcomes of a start request *)

(** X1. A start request is answered with one of the codes 200, 400, 409 and
    500, and with 200 exactly when its worker thread was started.  An answer
    other than 200 is a single error text.  With 400 and 409 the shared state
    is the one the request found; with 500 it is too, unless the request had
    passed the checks and [thread.start()] raised: then the state has been
    reset for the steps and the text is "Failed to start test: " followed by
    the text of the exception. *)
Theorem run_test_codes
    (env : Env) (req : request) (started : result unit) (g g' : Globals)
    (out : start_outcome) :
  run_test env req started g = (out, g') ->
  match out with
  | Started steps =>
      accepted env req g = true /\ started = Ok tt
      /\ steps_of req = Some steps /\ g' = reset_globals steps
      /\ forall g2, code (started_response g2) = 200
  | Answered resp =>
      In (code resp) [400; 409; 500]
      /\ (exists msg, body resp = JObj [("error", JStr msg)])
      /\ ((accepted env req g = false /\ g' = g)
          \/ (accepted env req g = true /\ code resp = 500
              /\ exists e steps,
                   started = Raise e
                   /\ steps_of req = Some steps
                   /\ resp = mkResponse 500
                               (JObj [("error",
                                       JStr ("Failed to start test: " ++
                                             exn_msg e))])
                   /\ g' = reset_globals steps))
  end.
Proof.
  assert (forall c msg, In c [400; 409; 500] ->
          In (code (error_response c msg)) [400; 409; 500]
          /\ exists m, body (error_response c msg) = JObj [("error", JStr m)])
    as Herr by (intros c msg Hc; split; [exact Hc | exists msg; reflexivity]).
  assert (In 400 [400; 409; 500]) as H400 by (left; reflexivity).
  assert (In 409 [400; 409; 500]) as H409 by (right; left; reflexivity).
  assert (In 500 [400; 409; 500]) as H500 by (right; right; left; reflexivity).
  intros Hrun. destruct out as [resp|steps].
  - destruct (accepted env req g) eqn:Hacc.
    + destruct (accepted_result env req started g Hacc)
        as (steps & Hs & Hres).
      rewrite Hres in Hrun. destruct started as [u|e]; [discriminate Hrun|].
      injection Hrun as <- <-.
      destruct (Herr 500 ("Failed to start test: " ++ exn_msg e) H500)
        as [H1 H2].
      split; [exact H1|]. split; [exact H2|]. right.
      split; [reflexivity|]. split; [reflexivity|].
      exists e, steps. repeat split. exact Hs.
    + destruct (run_test_rejected_unchanged env req started g Hacc)
        as [resp' Hrej].
      rewrite Hrej in Hrun. injection Hrun as <- <-.
      assert (exists c msg, In c [400; 409; 500]
                            /\ resp' = error_response c msg)
        as (c & msg & Hc & ->).
      { destruct (steps_of req) as [x|] eqn:Hs.
        - rewrite (run_test_text env req started g x Hs) in Hrej.
          destruct (PyStr.blank x); [injection Hrej as <-; eauto|].
          destruct (in_flight (test_status g)); [injection Hrej as <-; eauto|].
          destruct (negb (api_key_configured env));
            [injection Hrej as <-; eauto|].
          destruct (negb (BROWSER_USE_AVAILABLE env));
            [injection Hrej as <-; eauto|].
          destruct started; [discriminate Hrej | injection Hrej as <- _; eauto].
        - destruct (run_test_no_text env req started g Hs) as [e He].
          rewrite He in Hrej. injection Hrej as <-. eauto. }
      destruct (Herr c msg Hc) as [H1 H2].
      split; [exact H1|]. split; [exact H2|]. left. split; reflexivity.
  - destruct (run_test_started env req started g g' steps Hrun)
      as (-> & Hs & Hacc & ->).
    repeat split; assumption.
Qed.

Lemma run_test_codes_witness :
  let env := mkEnv (Some "key") true in
  let req := Ok (JObj [("testSteps", JStr "open page")]) in
  accepted env req initial_globals = true
  /\ run_test env req (Raise (Exn "can't start new thread" "")) initial_globals =
       (Answered
          (mkResponse 500
             (JObj [("error",
                     JStr "Failed to start test: can't start new thread")])),
        reset_globals "open page").
Proof.
  intros env req.
  pose proof (run_test_codes env req (Raise (Exn "can't start new thread" ""))
                initial_globals (reset_globals "open page")
                (Answered (start_failed (Exn "can't start new thread" "")))
                eq_refl) as (_ & _ & [[Hacc _]|(Hacc & _)]).
  - discriminate Hacc.
  - split; [exact Hacc | reflexivity].
Defined.

(** X2. A request whose body is not JSON, is not a JSON object, or holds a
    [testSteps] value that is not a string (null, number, boolean, list,
    object) is answered 500 with "Failed to start test: " followed by the text
    of the exception; the shared state is untouched and no worker starts. *)
Theorem run_test_malformed
    (env : Env) (req : request) (started : result unit) (s : Sys) :
  steps_of req = None ->
  run_test env req started (globals s) =
    (Answered
       (mkResponse 500
          (JObj [("error",
                  JStr ("Failed to start test: " ++ malformed_text req))])),
     globals s)
  /\ sys_step env (HttpRunTest req started) s =
       Some (Some (mkResponse 500
                     (JObj [("error",
                             JStr ("Failed to start test: " ++
                                   malformed_text req))])), s).
Proof.
  intros Hs.
  assert (run_test env req started (globals s) =
          (Answered
             (error_response 500 ("Failed to start test: " ++ malformed_text req)),
           globals s)) as Hrun.
  { unfold steps_of in Hs. unfold run_test, malformed_text.
    destruct req as [[| | | | |d]|e]; simpl in *; try reflexivity.
    destruct (dict_lookup "testSteps" d) as [[]|]; simpl in *;
      try reflexivity; discriminate. }
  split; [exact Hrun | exact (sys_step_rejected _ _ _ _ _ Hrun)].
Qed.

Lemma run_test_malformed_witness :
  run_test (mkEnv (Some "key") true) (Ok (JObj [("testSteps", JNum 5)]))
    (Ok tt) initial_globals =
  (Answered
     (mkResponse 500
        (JObj [("error",
                JStr "Failed to start test: 'int' object has no attribute 'strip'")])),
   initial_globals).
Proof.
  exact (proj1 (run_test_malformed (mkEnv (Some "key") true)
                  (Ok (JObj [("testSteps", JNum 5)])) (Ok tt) initial_sys
                  eq_refl)).
Defined.

(** X3. For a request with text steps, the answer is the 400 "Test steps
    cannot be empty" exactly when every character of the text is whitespace;
    a text with one other character is never refused as empty, whatever
    surrounds it. *)
Theorem run_test_empty_iff_blank
    (env : Env) (req : request) (started : result unit) (g : Globals)
    (steps : string) :
  steps_of req = Some steps ->
  ((exists resp, fst (run_test env req started g) = Answered resp
                 /\ code resp = 400)
   <-> PyStr.blank steps = true)
  /\ (fst (run_test env req started g) =
        Answered (error_response 400 "Test steps cannot be empty")
      <-> PyStr.blank steps = true).
Proof.
  intros Hs. rewrite (run_test_text env req started g steps Hs).
  destruct (PyStr.blank steps), (in_flight (test_status g)),
    (api_key_configured env), (BROWSER_USE_AVAILABLE env), started;
    simpl; repeat split; intros; try discriminate; try reflexivity;
    try (eexists; split; reflexivity);
    match goal with
    | H : exists _, _ /\ _ |- _ =>
        destruct H as (? & [= <-] & H); discriminate H
    end.
Qed.

Lemma run_test_empty_iff_blank_witness :
  fst (run_test (mkEnv None false) (Ok (JObj [("testSteps", JStr "  x  ")]))
         (Ok tt) initial_globals) <>
  Answered (error_response 400 "Test steps cannot be empty").
Proof.
  intros H.
  apply (proj1 (proj2 (run_test_empty_iff_blank (mkEnv None false)
                         (Ok (JObj [("testSteps", JStr "  x  ")])) (Ok tt)
                         initial_globals "  x  " eq_refl))) in H.
  discriminate H.
Defined.

(** X4. With non-blank steps, no run in flight and the key configured, a
    start request sent while the browser-use library is missing is answered
    500 with the text that names the library; state untouched, no worker. *)
Theorem run_test_library_unavailable
    (env : Env) (req : request) (started : result unit) (steps : string)
    (s : Sys) :
  steps_of req = Some steps ->
  PyStr.blank steps = false ->
  in_flight (test_status (globals s)) = false ->
  api_key_configured env = true ->
  BROWSER_USE_AVAILABLE env = false ->
  exists msg,
    PyStr.contains "browser-use library is not available" msg = true
    /\ sys_step env (HttpRunTest req started) s =
         Some (Some (mkResponse 500 (JObj [("error", JStr msg)])), s).
Proof.
  intros Hs Hb Hf Hk Ha. eexists. split; [|apply sys_step_rejected].
  2:{ rewrite (run_test_text env req _ _ steps Hs), Hb, Hf, Hk, Ha.
      reflexivity. }
  reflexivity.
Qed.

Lemma run_test_library_unavailable_witness :
  exists msg,
    PyStr.contains "browser-use library is not available" msg = true
    /\ sys_step (mkEnv (Some "key") false)
         (HttpRunTest (Ok (JObj [("testSteps", JStr "open page")])) (Ok tt))
         initial_sys =
         Some (Some (mkResponse 500 (JObj [("error", JStr msg)])), initial_sys).
Proof.
  apply (run_test_library_unavailable (mkEnv (Some "key") false) _ (Ok tt)
           "open page" initial_sys); reflexivity.
Defined.

(** ** Health and process start *)

(** X5. The two flags of the health answer are both true exactly when every
    start request with non-blank text steps that finds no run in flight
    passes the checks of the start handler (and so is accepted if its thread
    can be started); the health request itself leaves the process as it
    is. *)
Theorem health_predicts_start (env : Env) :
  (body_field "gemini_api_configured" (health_check env) = Some (JBool true)
   /\ body_field "browser_use_available" (health_check env) = Some (JBool true)
   <-> forall req g steps,
         steps_of req = Some steps -> PyStr.blank steps = false ->
         in_flight (test_status g) = false -> accepted env req g = true)
  /\ forall s, sys_step env HttpHealth s = Some (Some (health_check env), s).
Proof.
  split; [|reflexivity]. unfold body_field, health_check. simpl. split.
  - intros [Hk Ha] req g steps Hs Hb Hf. apply accepted_iff.
    exists steps. repeat split; try assumption; congruence.
  - intros H.
    specialize (H (Ok (JObj [("testSteps", JStr "x")])) initial_globals "x"
                  eq_refl eq_refl eq_refl).
    apply accepted_iff in H as (_ & _ & _ & _ & -> & ->). split; reflexivity.
Qed.

(** X6. The script serves exactly when the key is configured and the library
    is available, and otherwise exits with status 1; it serves on 0.0.0.0,
    port 5000, in debug mode, and announces the debug port 9222.  In a
    serving process a start request is answered 500 only when it has no
    usable text steps or when it passed the checks and [thread.start()]
    raised. *)
Theorem main_gate (env : Env) :
  (serving env = true <->
   api_key_configured env = true /\ BROWSER_USE_AVAILABLE env = true)
  /\ (serving env = false -> exists printed, main env = Exit printed 1)
  /\ (serving env = true ->
      (exists printed,
         main env = Serve printed true "0.0.0.0" 5000
         /\ In "Chrome Debug Port: 9222" printed)
      /\ forall req started g resp g',
           run_test env req started g = (Answered resp, g') ->
           code resp = 500 ->
           steps_of req = None
           \/ (accepted env req g = true /\ exists e, started = Raise e)).
Proof.
  unfold serving, main.
  destruct (api_key_configured env) eqn:Hk, (BROWSER_USE_AVAILABLE env) eqn:Ha;
    simpl; repeat split; intros; try discriminate; try tauto; eauto.
  - eexists. split; [reflexivity|]. simpl. tauto.
  - destruct (steps_of req) as [x|] eqn:Hs; [|left; reflexivity].
    right.
    match goal with
    | Hrun : run_test _ _ _ _ = _ |- _ =>
        rewrite (run_test_text env req started g x Hs), Hk, Ha in Hrun;
        destruct (PyStr.blank x) eqn:Hb;
          [injection Hrun as <- _; discriminate|];
        destruct (in_flight (test_status g)) eqn:Hf;
          [injection Hrun as <- _; discriminate|];
        simpl in Hrun; destruct started as [u|e]; [discriminate Hrun|]
    end.
    split; [|eauto]. apply accepted_iff. exists x. auto.
Qed.

Lemma main_gate_witness :
  exists printed,
    main (mkEnv (Some "key") true) = Serve printed true "0.0.0.0" 5000
    /\ In "Chrome Debug Port: 9222" printed.
Proof.
  exact (proj1 (proj2 (proj2 (main_gate (mkEnv (Some "key") true))) eq_refl)).
Defined.

(** ** Stopping *)

Lemma stop_test_not_in_flight (g : Globals) :
  in_flight (test_status (snd (stop_test g))) = false.
Proof.
  unfold stop_test. destruct (in_flight (test_status g)) eqn:E;
    [reflexivity | exact E].
Qed.

Lemma exec_app (env : Env) (evs1 evs2 : list event) :
  forall (s s1 s2 : Sys) (rs1 rs2 : list response),
    exec env evs1 s = Some (rs1, s1) ->
    exec env evs2 s1 = Some (rs2, s2) ->
    exec env (evs1 ++ evs2) s = Some ((rs1 ++ rs2)%list, s2).
Proof.
  induction evs1 as [|e evs1 IH]; simpl; intros s s1 s2 rs1 rs2 H1 H2.
  - injection H1 as <- <-. exact H2.
  - destruct (sys_step env e s) as [[r s0]|]; [|discriminate].
    destruct (exec env evs1 s0) as [[rs0 s3]|] eqn:Hex; [|discriminate].
    injection H1 as <- <-.
    rewrite (IH s0 s3 s2 rs0 rs2 Hex H2). destruct r; reflexivity.
Qed.


(** X8. After a stop request, a start request with non-blank text steps is
    accepted when the prerequisites hold and the thread starts.  The workers
    started before keep their places, so a run stopped in flight goes on
    beside the new one. *)
Theorem stop_then_start
    (env : Env) (req : request) (steps : string) (s : Sys) :
  steps_of req = Some steps ->
  PyStr.blank steps = false ->
  api_key_configured env = true ->
  BROWSER_USE_AVAILABLE env = true ->
  exists r1 r2 s2 k,
    exec env (stop_request s ++ [HttpRunTest req (Ok tt); Handler k]) s =
      Some ([r1; r2], s2)
    /\ r1 = fst (stop_test (globals s))
    /\ code r2 = 200
    /\ globals s2 = reset_globals steps
    /\ workers s2 = (workers s ++ [new_worker steps])%list.
Proof.
  intros Hs Hb Hk Ha.
  pose proof (stop_test_not_in_flight (globals s)) as Hf.
  pose proof (stop_request_exec env s) as Hstop.
  set (s1 := mkSys (snd (stop_test (globals s))) (workers s)
               (handlers s ++
                if stop_test_check (globals s) then [HReturned] else [])) in *.
  assert (accepted env req (globals s1) = true) as Hacc
    by (apply accepted_iff; exists steps; auto).
  pose proof (start_then_respond env req steps s1 Hs Hacc) as Hex.
  do 4 eexists. split; [exact (exec_app env _ _ _ _ _ _ _ Hstop Hex)|].
  repeat split.
Qed.

Lemma stop_then_start_witness :
  let env := mkEnv (Some "key") true in
  let w := mkWorker "old" WAgentRun true (Some PollSleeping) (trace_run "old") in
  let s := mkSys (mkGlobals (Some "old") "running" ["a"] None "") [w] [] in
  exists r1 r2 s2 k,
    exec env (stop_request s ++
              [HttpRunTest (Ok (JObj [("testSteps", JStr "new")])) (Ok tt);
               Handler k]) s =
      Some ([r1; r2], s2)
    /\ r1 = fst (stop_test (globals s))
    /\ code r2 = 200
    /\ globals s2 = reset_globals "new"
    /\ workers s2 = [w; new_worker "new"].
Proof.
  intros env w s.
  exact (stop_then_start env (Ok (JObj [("testSteps", JStr "new")])) "new" s
           eq_refl eq_refl eq_refl eq_refl).
Defined.

(** * Further properties of the process *)

(** ** What a step leaves alone *)

Lemma extends_refl (l : list string) : extends l l.
Proof. exists []. symmetry. apply app_nil_r. Qed.

Ltac show_extends :=
  first [ apply extends_refl
        | eexists; cbn [test_logs log set_status set_url set_screenshot];
          rewrite <- ?app_assoc; reflexivity ].

(** A piece of a worker keeps the current test and only appends to the
    logs; a runner piece keeps screenshot and URL; a poller piece keeps
    status and logs. *)
Lemma worker_step_frame
    (env : Env) (ev : wevent) (w w' : Worker) (g g' : Globals) :
  worker_step env ev w g = Some (w', g') ->
  current_test g' = current_test g
  /\ extends (test_logs g) (test_logs g')
  /\ (is_poll ev = false ->
      browser_screenshot g' = browser_screenshot g
      /\ browser_url g' = browser_url g)
  /\ (is_poll ev = true ->
      test_status g' = test_status g /\ test_logs g' = test_logs g).
Proof.
  unfold worker_step, init_failed, unexpected_error. intros H.
  destruct (w_pc w); break_step H;
    (split; [reflexivity|]); (split; [show_extends|]);
    split; intros Hp; try discriminate Hp; split; reflexivity.
Qed.

(** X9. The logs only grow and the current test stays, except at a start
    request that passes the checks: every other event leaves the log lines
    that were there, in order, at the head of the logs, and keeps the current
    test; a start request that passes the checks replaces the logs by the
    handler's two lines. *)
Theorem logs_append_only
    (env : Env) (e : event) (s s' : Sys) (r : option response) :
  sys_step env e s = Some (r, s') ->
  (exists req started steps,
     e = HttpRunTest req started /\ steps_of req = Some steps
     /\ accepted env req (globals s) = true
     /\ current_test (globals s') = Some steps
     /\ test_logs (globals s') =
          ["Test steps received"; "Preparing to start test execution..."])
  \/ (current_test (globals s') = current_test (globals s)
      /\ extends (test_logs (globals s)) (test_logs (globals s'))).
Proof.
  intros Hstep. destruct e; simpl in Hstep.
  - injection Hstep as <- <-. right. split; [reflexivity | apply extends_refl].
  - pose proof (run_test_globals env req started (globals s)) as Hgl.
    destruct (run_test env req started (globals s)) as [[resp|st] g'];
      injection Hstep as <- <-; simpl in *;
      (destruct Hgl as [[_ ->]|(Hacc & steps & Hs & ->)];
       [right; split; [reflexivity | apply extends_refl]
       |left; exists req, started, steps; repeat split; assumption]).
  - injection Hstep as <- <-. right. split; [reflexivity | apply extends_refl].
  - destruct (stop_test_check (globals s));
      injection Hstep as <- <-; right;
      (split; [reflexivity | apply extends_refl]).
  - destruct (handlers s !! k) as [h|]; [|discriminate].
    destruct (handler_step h (globals s)) as [[[r0 g'] h']|] eqn:Hh;
      [|discriminate].
    injection Hstep as <- <-. right. simpl.
    destruct (handler_step_frame _ _ _ _ _ Hh) as (Hc & _ & _ & _ & [Hl|Hl]).
    + split; [exact Hc|]. rewrite Hl. apply extends_refl.
    + split; [exact Hc|]. rewrite Hl. eexists. reflexivity.
  - destruct (workers s !! i) as [w|]; [|discriminate].
    destruct (worker_step env ev w (globals s)) as [[w' g']|] eqn:Hws;
      [|discriminate].
    injection Hstep as <- <-. right.
    destruct (worker_step_frame env ev w w' _ _ Hws) as (H1 & H2 & _).
    split; assumption.
Qed.

Lemma logs_append_only_witness :
  let env := mkEnv (Some "key") true in
  let w := mkWorker "t" WClosing true None
             (trace_agent "t" ++ [CallClose])%list in
  let s := mkSys (mkGlobals (Some "t") "error" ["a"; "b"] None "") [w] [] in
  extends ["a"; "b"] ["a"; "b"; "Browser closed"].
Proof.
  intros env w s.
  destruct (logs_append_only env (Work 0 (EvClose (Ok tt))) s
              (mkSys (log "Browser closed" (globals s)) [at_pc WDone [] w] [])
              None eq_refl) as [(req & started & steps & He & _)|[_ H]];
    [discriminate He | exact H].
Defined.

(** X10. The poller writes nothing but the URL and the screenshot: a poller
    piece never changes status, logs or current test; waking up changes at
    most the URL, and changes nothing at all when the status it reads is
    not "running" or "initializing", in which case the poller ends; the
    return from a capture changes at most the screenshot, and nothing when
    the capture raised. *)
Theorem poller_frame
    (env : Env) (ev : wevent) (w w' : Worker) (g g' : Globals) :
  is_poll ev = true ->
  worker_step env ev w g = Some (w', g') ->
  test_status g' = test_status g
  /\ test_logs g' = test_logs g
  /\ current_test g' = current_test g
  /\ w_pc w' = w_pc w
  /\ w_calls w' = w_calls w
  /\ (forall page, ev = EvPollWake page ->
      browser_screenshot g' = browser_screenshot g
      /\ (in_flight (test_status g) = false ->
          g' = g /\ w_poller w' = Some PollFinished))
  /\ (forall r, ev = EvPollShot r ->
      browser_url g' = browser_url g
      /\ w_poller w' = Some PollSleeping
      /\ (forall e, r = Raise e -> g' = g)).
Proof.
  intros Hp H.
  destruct (worker_step_frame env ev w w' g g' H) as (Hc & _ & _ & Hsl).
  destruct (Hsl Hp) as [Hst Hl].
  do 3 (split; [assumption|]).
  unfold worker_step in H.
  destruct (w_pc w) eqn:Epc; destruct ev; try discriminate Hp;
    try discriminate H.
  - destruct (w_poller w) as [[]|] eqn:Epo; try discriminate H.
    destruct (in_flight (test_status g)) eqn:Ef.
    + destruct (w_browser w), page; injection H as <- <-; simpl;
        repeat split; intros; try congruence; try discriminate.
    + injection H as <- <-. simpl.
      repeat split; intros; try congruence; try discriminate.
  - destruct (w_poller w) as [[]|] eqn:Epo; try discriminate H.
    destruct r; injection H as <- <-; simpl;
      repeat split; intros; try congruence; try discriminate.
Qed.

Lemma poller_frame_witness :
  let w := mkWorker "t" WAgentRun true (Some PollSleeping) (trace_run "t") in
  let g := mkGlobals (Some "t") "stopped" ["a"] (Some "QUJD") "http://a/" in
  worker_step (mkEnv (Some "key") true) (EvPollWake (Some "http://b/")) w g =
    Some (with_poller PollFinished w, g)
  /\ test_status g = "stopped".
Proof.
  intros w g. split; [reflexivity|].
  exact (proj1 (poller_frame (mkEnv (Some "key") true)
                  (EvPollWake (Some "http://b/")) w
                  (with_poller PollFinished w) g g eq_refl eq_refl)).
Defined.

(** ** Status values *)

Lemma worker_step_status
    (env : Env) (ev : wevent) (w w' : Worker) (g g' : Globals) :
  worker_step env ev w g = Some (w', g') ->
  test_status g' = test_status g
  \/ In (test_status g') ["initializing"; "running"; "completed"; "error"].
Proof.
  unfold worker_step. intros H.
  destruct (w_pc w); break_step H; simpl; tauto.
Qed.

Lemma lookup_not_nil (A : Type) (i : nat) (x : A) (l : list A) :
  l !! i = Some x -> l <> [].
Proof. intros H ->. discriminate H. Qed.

(** X11. In every reachable state the status is one of idle, starting,
    initializing, running, completed, error, stopped.  It is idle in the
    initial state only: once a start request has passed the checks the
    process never shows idle again, whether or not the worker thread could
    be started. *)
Theorem status_values_only (env : Env) (s : Sys) :
  reachable env s ->
  In (test_status (globals s)) status_values
  /\ (test_status (globals s) = "idle" <-> s = initial_sys).
Proof.
  assert (forall s' : Sys, test_status (globals s') <> "idle" ->
          (test_status (globals s') = "idle" <-> s' = initial_sys)) as Hne.
  { intros s' Hn. split; [contradiction | intros ->; contradiction Hn].
    reflexivity. }
  induction 1 as [|s s' e r _ IH Hstep].
  - simpl. split; [auto | tauto].
  - destruct IH as (Hin & Hidle). destruct e; simpl in Hstep.
    + injection Hstep as <- <-. auto.
    + pose proof (run_test_globals env req started (globals s)) as Hgl.
      destruct (run_test env req started (globals s)) as [[resp|st] g'] eqn:Hrun;
        injection Hstep as <- <-; simpl in Hgl.
      * destruct Hgl as [[_ ->]|(_ & steps & _ & ->)].
        -- destruct s; simpl in *. auto.
        -- split; [simpl; tauto | apply Hne; discriminate].
      * destruct (run_test_started env req started _ _ _ Hrun) as (-> & _).
        split; [simpl; tauto | apply Hne; discriminate].
    + injection Hstep as <- <-. auto.
    + unfold stop_test_check in Hstep.
      destruct (in_flight (test_status (globals s))) eqn:Hf;
        injection Hstep as <- <-; [|auto].
      split; [exact Hin|]. apply Hne. simpl. intros Hi.
      rewrite Hi in Hf. discriminate Hf.
    + destruct (handlers s !! k) as [h|] eqn:Hk; [|discriminate].
      destruct (handler_step h (globals s)) as [[[r0 g'] h']|] eqn:Hh;
        [|discriminate].
      injection Hstep as <- <-.
      assert (test_status (globals s) <> "idle") as Hs.
      { intros Hi. apply Hidle in Hi. subst s. discriminate Hk. }
      destruct (handler_step_frame _ _ _ _ _ Hh)
        as (_ & _ & _ & [Hst|[_ Hst]] & _).
      * rewrite <- Hst in Hin, Hs. split; [exact Hin | apply Hne; exact Hs].
      * split; [simpl; rewrite Hst; simpl; tauto|].
        apply Hne. simpl. rewrite Hst. discriminate.
    + destruct (workers s !! i) as [w|] eqn:Hi; [|discriminate].
      destruct (worker_step env ev w (globals s)) as [[w' g']|] eqn:Hws;
        [|discriminate].
      injection Hstep as <- <-.
      assert (test_status (globals s) <> "idle") as Hs.
      { intros Hx. apply Hidle in Hx. subst s. discriminate Hi. }
      destruct (worker_step_status env ev w w' _ _ Hws) as [Hst|Hst].
      * rewrite <- Hst in Hin, Hs. split; [exact Hin | apply Hne; exact Hs].
      * split; [simpl in *; tauto|]. apply Hne. simpl. intros Hx.
        rewrite Hx in Hst. simpl in Hst.
        repeat destruct Hst as [Hst|Hst]; try discriminate Hst; contradiction.
Qed.

Lemma status_values_only_witness :
  let env := mkEnv (Some "key") true in
  let s := mkSys (reset_globals "t") [] [] in
  In (test_status (globals s)) status_values
  /\ (test_status (globals s) = "idle" <-> s = initial_sys).
Proof.
  intros env s.
  assert (reachable env s) as Hr.
  { apply (reachable_step env initial_sys s
             (HttpRunTest (Ok (JObj [("testSteps", JStr "t")]))
                (Raise (Exn "can't start new thread" "")))
             (Some (start_failed (Exn "can't start new thread" ""))));
      [constructor | reflexivity]. }
  exact (status_values_only env s Hr).
Defined.

(** Workers come from start requests that passed the checks. *)
Lemma reachable_prerequisites (env : Env) (s : Sys) :
  reachable env s ->
  workers s <> [] ->
  api_key_configured env = true /\ BROWSER_USE_AVAILABLE env = true.
Proof.
  induction 1 as [|s s' e r _ IH Hstep]; [contradiction|].
  destruct e; simpl in Hstep.
  - injection Hstep as <- <-. exact IH.
  - destruct (run_test env req started (globals s)) as [[resp|st] g'] eqn:Hrun;
      injection Hstep as <- <-; simpl; [exact IH|].
    intros _.
    destruct (run_test_started env req started _ _ _ Hrun)
      as (_ & _ & Hacc & _).
    apply accepted_iff in Hacc as (_ & _ & _ & _ & Hk & Ha). auto.
  - injection Hstep as <- <-. exact IH.
  - destruct (stop_test_check (globals s)); injection Hstep as <- <-;
      exact IH.
  - destruct (handlers s !! k) as [h|]; [|discriminate].
    destruct (handler_step h (globals s)) as [[[r0 g'] h']|];
      [|discriminate].
    injection Hstep as <- <-. exact IH.
  - destruct (workers s !! i) as [w0|] eqn:Hi0; [|discriminate].
    intros _. exact (IH (lookup_not_nil _ i w0 _ Hi0)).
Qed.

(** X13. Workers exist only in a process whose key is configured and whose
    library is available.  So the runner's own key test (line 42) never
    raises and the library test of the worker (line 68) never fires: a
    runner constructed without error always goes on to construct the
    browser. *)
Theorem workers_imply_prerequisites
    (env : Env) (s : Sys) (i : nat) (w : Worker) :
  reachable env s ->
  workers s !! i = Some w ->
  api_key_configured env = true
  /\ BROWSER_USE_AVAILABLE env = true
  /\ (forall r, runner_init env r = r)
  /\ (w_pc w = WRunnerInit ->
      sys_step env (Work i (EvRunnerInit (Ok tt))) s =
        Some (None,
              mkSys (mkGlobals (current_test (globals s)) "initializing"
                       (test_logs (globals s) ++
                          ["Starting WebTestAssistant...";
                           "Initializing browser with remote debugging..."])
                       (browser_screenshot (globals s))
                       (browser_url (globals s)))
                    (<[i := at_pc WBrowserInit [CallBrowser false] w]>
                       (workers s))
                    (handlers s))).
Proof.
  intros Hr Hi.
  pose proof (reachable_prerequisites env s Hr) as Hpre.
  destruct (Hpre (lookup_not_nil _ i w _ Hi)) as [Hk Ha].
  split; [exact Hk|]. split; [exact Ha|].
  split; [intros r; unfold runner_init; rewrite Hk; reflexivity|].
  intros Hpc. unfold sys_step, worker_step, runner_init.
  rewrite Hi, Hpc, Hk, Ha. simpl. unfold log, set_status. simpl.
  rewrite <- app_assoc. reflexivity.
Qed.

Lemma workers_imply_prerequisites_witness :
  let env := mkEnv (Some "key") true in
  let s := mkSys (reset_globals "t") [new_worker "t"] [HStartRespond] in
  api_key_configured env = true /\ BROWSER_USE_AVAILABLE env = true.
Proof.
  intros env s.
  assert (reachable env s) as Hr.
  { apply (reachable_step env initial_sys s
             (HttpRunTest (Ok (JObj [("testSteps", JStr "t")])) (Ok tt))
             None);
      [constructor | reflexivity]. }
  destruct (workers_imply_prerequisites env s 0 (new_worker "t") Hr eq_refl)
    as (H1 & H2 & _).
  split; [exact H1 | exact H2].
Defined.

(** ** A run on its own *)

Lemma worker_step_status_at
    (env : Env) (ev : wevent) (w w' : Worker) (g g' : Globals) :
  worker_step env ev w g = Some (w', g') ->
  status_at (w_pc w) (test_status g) = true ->
  status_at (w_pc w') (test_status g') = true /\ w_pc w' <> WRunnerInit.
Proof.
  unfold worker_step, enter_finally. intros H Hs.
  destruct (w_pc w) eqn:Epc; break_step H; simpl in *; rewrite ?Epc; simpl;
    (split; [first [reflexivity | exact Hs] | discriminate]).
Qed.

Lemma status_at_starting (pc : worker_pc) : status_at pc "starting" = true.
Proof. destruct pc; reflexivity. Qed.

Lemma status_at_stopped (pc : worker_pc) :
  pc <> WRunnerInit -> status_at pc "stopped" = true.
Proof. destruct pc; intros H; try reflexivity. contradiction. Qed.

Lemma status_at_runner_init (st : string) :
  status_at WRunnerInit st = true -> in_flight st = false.
Proof. simpl. intros H. apply String.eqb_eq in H. subst. reflexivity. Qed.

Lemma status_at_after_run (pc : worker_pc) (st : string) :
  pc = WAwaitPoller \/ pc = WClosing \/ pc = WDone ->
  status_at pc st = true -> in_flight st = false.
Proof.
  intros Hpc Hs.
  assert ((String.eqb st "completed" || String.eqb st "error"
           || String.eqb st "stopped" || String.eqb st "starting") = true) as H
    by (destruct Hpc as [->|[->| ->]]; exact Hs).
  repeat match goal with
    | H : (_ || _) = true |- _ => apply orb_true_iff in H as [H|H]
    end; apply String.eqb_eq in H; subst; reflexivity.
Qed.

Lemma solo_inv_step
    (env : Env) (e : event) (s s' : Sys) (r : option response) :
  sys_step env e s = Some (r, s') -> solo_inv s -> solo_inv s'.
Proof.
  intros Hstep Hinv. unfold solo_inv in *. destruct e; simpl in Hstep.
  - injection Hstep as <- <-. exact Hinv.
  - pose proof (run_test_globals env req started (globals s)) as Hgl.
    destruct (run_test env req started (globals s)) as [[resp|st] g'] eqn:Hrun;
      injection Hstep as <- <-; simpl in *.
    + destruct Hgl as [[_ ->]|(_ & steps & _ & ->)]; [exact Hinv|].
      destruct (workers s) as [|w [|w2 l]]; simpl; [tauto | | exact I].
      split; [apply status_at_starting | tauto].
    + destruct (run_test_started env req started _ _ _ Hrun) as (-> & _).
      destruct (workers s) as [|w [|w2 l]]; simpl; try exact I.
      destruct Hinv as [-> _]. split; [reflexivity|].
      intros _. repeat constructor.
  - injection Hstep as <- <-. exact Hinv.
  - unfold stop_test_check in Hstep.
    destruct (in_flight (test_status (globals s))) eqn:Hf;
      injection Hstep as <- <-; [|exact Hinv]. simpl.
    destruct (workers s) as [|w [|w2 l]]; [| |exact I].
    + destruct Hinv as [_ [H|H]]; rewrite H in Hf; discriminate Hf.
    + destruct Hinv as [Hs Hh]. split; [exact Hs|].
      intros Hpc. rewrite Hpc in Hs.
      rewrite (status_at_runner_init _ Hs) in Hf. discriminate Hf.
  - destruct (handlers s !! k) as [h|] eqn:Hk; [|discriminate].
    destruct (handler_step h (globals s)) as [[[r0 g'] h']|] eqn:Hh;
      [|discriminate].
    injection Hstep as <- <-. simpl.
    destruct (workers s) as [|w [|w2 l]]; [| |exact I].
    + destruct Hinv as [Hn _]. rewrite Hn in Hk. discriminate Hk.
    + destruct Hinv as [Hs Hno].
      destruct h; simpl in Hh; try discriminate Hh;
        injection Hh as <- <- <-; simpl.
      * split; [exact Hs|]. intros Hpc.
        apply Forall_insert; [exact (Hno Hpc) | reflexivity].
      * assert (w_pc w <> WRunnerInit) as Hpc.
        { intros Hpc.
          pose proof (proj1 (Forall_lookup _ _) (Hno Hpc) k _ Hk) as Hx.
          discriminate Hx. }
        split; [apply status_at_stopped; exact Hpc | contradiction].
      * assert (w_pc w <> WRunnerInit) as Hpc.
        { intros Hpc.
          pose proof (proj1 (Forall_lookup _ _) (Hno Hpc) k _ Hk) as Hx.
          discriminate Hx. }
        split; [exact Hs | contradiction].
  - destruct (workers s !! i) as [w0|] eqn:Hi; [|discriminate].
    destruct (worker_step env ev w0 (globals s)) as [[w' g']|] eqn:Hws;
      [|discriminate].
    injection Hstep as <- <-. simpl.
    destruct (workers s) as [|a [|b l]] eqn:Hl; [discriminate Hi| |].
    + destruct i as [|i]; [|discriminate Hi].
      simpl in Hi. injection Hi as ->. simpl.
      destruct Hinv as [Hs _].
      destruct (worker_step_status_at env ev w0 w' _ _ Hws Hs) as [H1 H2].
      split; [exact H1 | contradiction].
    + destruct i as [|[|i]]; simpl; exact I.
Qed.

(** X12. As long as one worker only has been started, the status follows
    it: "starting" until the runner is constructed; then "initializing"
    while the browser is constructed and "running" until the agent's run
    ends, or "stopped" after a stop request, or "starting" after a later
    start request whose thread could not be started; and "completed",
    "error", "stopped" or "starting" from then on.  So once the agent's run
    has ended the status is never "running" or "initializing": the process
    is not left refusing start requests. *)
Theorem solo_run_status (env : Env) (s : Sys) (w : Worker) :
  reachable env s ->
  workers s = [w] ->
  status_at (w_pc w) (test_status (globals s)) = true
  /\ (w_pc w = WAwaitPoller \/ w_pc w = WClosing \/ w_pc w = WDone ->
      in_flight (test_status (globals s)) = false
      /\ forall req steps,
           steps_of req = Some steps -> PyStr.blank steps = false ->
           accepted env req (globals s) = true).
Proof.
  intros Hr Hw.
  assert (solo_inv s) as Hinv.
  { clear Hw. induction Hr as [|s s' e r _ IH Hstep].
    - split; [reflexivity | left; reflexivity].
    - exact (solo_inv_step env e s s' r Hstep IH). }
  unfold solo_inv in Hinv. rewrite Hw in Hinv. destruct Hinv as [Hs _].
  split; [exact Hs|]. intros Hpc.
  pose proof (status_at_after_run _ _ Hpc Hs) as Hf.
  split; [exact Hf|]. intros req steps Hsteps Hb.
  apply accepted_iff. exists steps.
  assert (workers s <> []) as Hne by (rewrite Hw; discriminate).
  destruct (reachable_prerequisites env s Hr Hne) as [Hk Ha].
  auto.
Qed.

Lemma solo_run_status_witness :
  let env := mkEnv (Some "key") true in
  let w := mkWorker "t" WDone true (Some PollFinished)
             (trace_cancel "t" ++ [CallClose])%list in
  let s := mkSys (mkGlobals (Some "t") "stopped"
                    ["Test steps received";
                     "Preparing to start test execution...";
                     "Starting WebTestAssistant...";
                     "Initializing browser with remote debugging...";
                     "Browser initialized successfully";
                     "Starting AI agent...";
                     "Browser view will be available shortly...";
                     "AI agent created successfully";
                     "Running test automation...";
                     "Test execution completed successfully!";
                     "Browser closed"] None "")
                 [w] [HStartRespond; HStopLog] in
  status_at WDone "stopped" = true
  /\ in_flight (test_status (globals s)) = false.
Proof.
  intros env w s.
  assert (reachable env s) as Hr.
  { apply (exec_reachable env
             [HttpRunTest (Ok (JObj [("testSteps", JStr "t")])) (Ok tt);
              Work 0 (EvRunnerInit (Ok tt)); Work 0 (EvBrowserInit (Ok tt));
              Work 0 (EvAgentInit (Ok tt)); Work 0 (EvCreateTask (Ok tt));
              HttpStop; Work 0 (EvAgentRun (Ok tt)); Work 0 EvPollerJoined;
              Work 0 (EvClose (Ok tt)); Handler 1]
             initial_sys s []);
      [constructor | vm_compute; reflexivity]. }
  destruct (solo_run_status env s w Hr eq_refl) as [H1 H2].
  split; [exact H1|].
  exact (proj1 (H2 (or_intror (or_intror eq_refl)))).
Defined.

(** ** The poller task and the browser *)

(** X16. The poller task does not outlive the run: a poller that has not
    ended belongs to a worker that awaits the agent's run or awaits the
    cancelled poller; and a worker that called the browser's close either
    never created a poller or cancelled it and saw it end before the
    close. *)
Theorem poller_ends_before_close
    (env : Env) (s : Sys) (i : nat) (w : Worker) (p : poller_pc) :
  reachable env s ->
  workers s !! i = Some w ->
  (w_poller w = Some p -> p <> PollFinished ->
   w_pc w = WAgentRun \/ w_pc w = WAwaitPoller)
  /\ (In CallClose (w_calls w) ->
      (w_poller w = None /\ ~ In (CallAgentRun 25) (w_calls w))
      \/ (w_poller w = Some PollFinished
          /\ In CallCancelPoller (w_calls w))).
Proof.
  intros Hr Hi. pose proof (reachable_worker_ok env s i w Hr Hi) as Hok.
  unfold worker_ok, closing_trace in Hok.
  destruct w as [st pc br po ca]. simpl in *.
  destruct pc;
    repeat match goal with
      | H : _ /\ _ |- _ => destruct H
      | H : _ \/ _ |- _ => destruct H
      | H : exists _, _ |- _ => destruct H
      end; subst; simpl; split; intros;
    try discriminate; try congruence; try tauto;
    try (left; split; [reflexivity|]; intros Hin;
         repeat destruct Hin as [Hin|Hin]; try discriminate Hin;
         contradiction);
    try (exfalso;
         repeat match goal with
           | H : _ \/ _ |- _ => destruct H
           end; try discriminate; contradiction).
Qed.

Lemma poller_ends_before_close_witness :
  let env := mkEnv (Some "key") true in
  let w := mkWorker "t" WClosing true (Some PollFinished)
             (trace_cancel "t" ++ [CallClose])%list in
  let s := mkSys (mkGlobals (Some "t") "error"
                    ["Test steps received";
                     "Preparing to start test execution...";
                     "Starting WebTestAssistant...";
                     "Initializing browser with remote debugging...";
                     "Browser initialized successfully";
                     "Starting AI agent...";
                     "Browser view will be available shortly...";
                     "AI agent created successfully";
                     "Running test automation...";
                     "Test execution error: boom"] None "")
                 [w] [HStartRespond] in
  w_poller w = Some PollFinished /\ In CallCancelPoller (w_calls w).
Proof.
  intros env w s.
  assert (reachable env s) as Hr.
  { apply (exec_reachable env
             [HttpRunTest (Ok (JObj [("testSteps", JStr "t")])) (Ok tt);
              Work 0 (EvRunnerInit (Ok tt)); Work 0 (EvBrowserInit (Ok tt));
              Work 0 (EvAgentInit (Ok tt)); Work 0 (EvCreateTask (Ok tt));
              Work 0 (EvAgentRun (Raise (Exn "boom" "")));
              Work 0 EvPollerJoined]
             initial_sys s []);
      [constructor | vm_compute; reflexivity]. }
  destruct (proj2 (poller_ends_before_close env s 0 w PollSleeping Hr eq_refl))
    as [[Hn _]|H]; [simpl; tauto | discriminate Hn | exact H].
Defined.

(** ** The screenshot text *)

(** X14. Different captures give different screenshot texts: the encoding
    is injective, and decoding a stored text gives the captured bytes
    back. *)
Theorem b64encode_injective (a b : list byte) :
  Base64.b64encode a = Base64.b64encode b -> a = b.
Proof.
  intros H. apply (f_equal Base64.b64decode) in H.
  rewrite !Base64Facts.b64decode_b64encode in H. injection H as ->.
  reflexivity.
Qed.

Lemma b64encode_injective_witness :
  Base64.b64encode [Byte.x41; Byte.x42] <> Base64.b64encode [Byte.x41; Byte.x43].
Proof.
  intros H.
  pose proof (b64encode_injective [Byte.x41; Byte.x42] [Byte.x41; Byte.x43] H)
    as Heq.
  discriminate Heq.
Defined.

(** X15. The screenshot text of [n] bytes has 4 * ceil(n / 3) characters,
    each a letter, digit, "+", "/" or the pad "="; it is empty only for an
    empty capture. *)
Theorem b64encode_shape (bs : list byte) :
  String.length (Base64.b64encode bs) = (4 * ((length bs + 2) / 3))%nat
  /\ forallb b64_text_char (list_ascii_of_string (Base64.b64encode bs)) = true
  /\ (Base64.b64encode bs = EmptyString <-> bs = []).
Proof.
  assert (forall n, 0 <= n < 64 -> b64_text_char (Base64.b64_char n) = true)
    as Hch.
  { intros n Hn. unfold b64_text_char.
    destruct (Base64Facts.char_index n Hn) as [-> _]. reflexivity. }
  induction bs as [|x|x y|x y z r IH] using Base64Facts.list_ind3.
  - repeat split; reflexivity.
  - destruct (Base64Facts.group_facts x Byte.x00) as (R0 & R1 & _).
    change (Base64.byte_val Byte.x00) with 0 in *.
    cbn [Base64.b64encode String.length list_ascii_of_string forallb length].
    rewrite (Hch _ R0), (Hch _ R1).
    repeat split; try reflexivity; intros; discriminate.
  - destruct (Base64Facts.group_facts x y) as (R0 & R1 & _).
    destruct (Base64Facts.group_facts y Byte.x00) as (_ & _ & R2 & _).
    change (Base64.byte_val Byte.x00) with 0 in *.
    cbn [Base64.b64encode String.length list_ascii_of_string forallb length].
    rewrite (Hch _ R0), (Hch _ R1), (Hch _ R2).
    repeat split; try reflexivity; intros; discriminate.
  - destruct IH as (IHl & IHc & _).
    destruct (Base64Facts.group_facts x y) as (R0 & R1 & _).
    destruct (Base64Facts.group_facts y z) as (_ & _ & R2 & _).
    destruct (Base64Facts.group_facts z z) as (_ & _ & _ & R3 & _).
    cbn [Base64.b64encode String.length list_ascii_of_string forallb length].
    rewrite (Hch _ R0), (Hch _ R1), (Hch _ R2), (Hch _ R3), IHc, IHl.
    split; [|split; [reflexivity | split; intros; discriminate]].
    replace (S (S (S (length r))) + 2)%nat with (1 * 3 + (length r + 2))%nat
      by lia.
    rewrite Nat.div_add_l by lia. lia.
Qed.

(** ** Polling after a start *)

(** X17. A status request that follows an accepted start shows the new run
    and nothing of the state before it: status "starting", the handler's two
    log lines, the steps as current test, no screenshot, an empty URL and
    the debug port. *)
Theorem status_after_start (env : Env) (req : request) (s : Sys) :
  accepted env req (globals s) = true ->
  exists steps r s',
    steps_of req = Some steps
    /\ exec env [HttpRunTest req (Ok tt); Handler (length (handlers s));
                 HttpStatus] s =
         Some ([r;
                mkResponse 200
                  (JObj [("status", JStr "starting");
                         ("logs",
                          JArr [JStr "Test steps received";
                                JStr "Preparing to start test execution..."]);
                         ("currentTest", JStr steps);
                         ("browserScreenshot", JNull);
                         ("browserUrl", JStr "");
                         ("cdpPort", JNum 9222)])], s')
    /\ exec env [HttpRunTest req (Ok tt); HttpStatus] s =
         Some ([mkResponse 200
                  (JObj [("status", JStr "starting");
                         ("logs",
                          JArr [JStr "Test steps received";
                                JStr "Preparing to start test execution..."]);
                         ("currentTest", JStr steps);
                         ("browserScreenshot", JNull);
                         ("browserUrl", JStr "");
                         ("cdpPort", JNum 9222)])],
               mkSys (reset_globals steps) (workers s ++ [new_worker steps])
                     (handlers s ++ [HStartRespond]))
    /\ workers s' = (workers s ++ [new_worker steps])%list.
Proof.
  intros Hacc.
  destruct (accepted_result env req (Ok tt) _ Hacc)
    as (steps & Hs & Hrun).
  exists steps.
  pose proof (start_then_respond env req steps s Hs Hacc) as Hex.
  pose proof (exec_app env _ [HttpStatus] _ _ _ _ _ Hex eq_refl) as Hex2.
  do 2 eexists. split; [exact Hs|]. split; [exact Hex2|].
  split; [|reflexivity].
  unfold exec, sys_step. rewrite Hrun. reflexivity.
Qed.

Lemma status_after_start_witness :
  let env := mkEnv (Some "key") true in
  let s := mkSys (mkGlobals (Some "old") "completed" ["x"; "y"] (Some "QUJD")
                    "http://old/") [] [] in
  exists steps r s',
    steps_of (Ok (JObj [("testSteps", JStr "new")])) = Some steps
    /\ exec env [HttpRunTest (Ok (JObj [("testSteps", JStr "new")])) (Ok tt);
                 Handler 0; HttpStatus] s =
         Some ([r;
                mkResponse 200
                  (JObj [("status", JStr "starting");
                         ("logs",
                          JArr [JStr "Test steps received";
                                JStr "Preparing to start test execution..."]);
                         ("currentTest", JStr steps);
                         ("browserScreenshot", JNull);
                         ("browserUrl", JStr "");
                         ("cdpPort", JNum 9222)])], s').
Proof.
  intros env s.
  destruct (status_after_start env (Ok (JObj [("testSteps", JStr "new")])) s
              eq_refl) as (steps & r & s' & H1 & H2 & _).
  exists steps, r, s'. split; [exact H1 | exact H2].
Defined.

(** ** Progress of a worker *)

(** X18. A worker cannot loop or hang on its own account: every piece other
    than a poller piece brings it strictly closer to its return (at most
    seven such pieces from start to return); before its return it can always
    take the piece it waits for, whatever the outcome of the call and
    whatever the shared state; after its return it takes no piece and so
    never touches the shared state again. *)
Theorem worker_progress
    (env : Env) (w : Worker) (g : Globals) :
  (forall ev w' g',
     is_poll ev = false ->
     worker_step env ev w g = Some (w', g') ->
     (pieces_left (w_pc w') < pieces_left (w_pc w))%nat)
  /\ (forall ev w' g',
       is_poll ev = true ->
       worker_step env ev w g = Some (w', g') -> w_pc w' = w_pc w)
  /\ (w_pc w <> WDone ->
      forall r, exists w' g',
        worker_step env (awaited (w_pc w) r) w g = Some (w', g'))
  /\ (w_pc w = WDone -> forall ev, worker_step env ev w g = None).
Proof.
  repeat split.
  - intros ev w' g' Hp H. unfold worker_step, enter_finally in H.
    destruct (w_pc w) eqn:Epc; break_step H; simpl in *;
      try discriminate Hp; lia.
  - intros ev w' g' Hp H. unfold worker_step in H.
    destruct (w_pc w) eqn:Epc; break_step H; simpl in *;
      try discriminate Hp; exact Epc.
  - intros Hpc r. unfold worker_step.
    destruct (w_pc w) eqn:Epc; try contradiction; simpl;
      repeat match goal with
        | |- context [match ?x with _ => _ end] => destruct x
        end; eauto.
  - intros Hpc ev. unfold worker_step. rewrite Hpc. destruct ev; reflexivity.
Qed.
